(** * debug.h: logging macros and guard macros, as a shallow embedding

    The header [src/debug.h] defines a process-wide logger (two static
    variables, [log_level] and [log_file]), the statement macro [log_log] with
    its five wrappers, the guard macros [check], [check_mem] and [check_debug],
    and the two helper functions [get_log_level_str] and [get_time_str].

    The macros are embedded as computations over an explicit process state.
    The C library is embedded as far as the header uses it: [fprintf] with the
    conversions [%s], [%d] and [%%], [fflush], [fopen] (a parameter),
    [strftime] with the conversions of the header's format, [errno].
    A failed [fopen] stores its error number in [errno]; stores to [errno]
    by [fprintf], [fflush] and [strftime] are outside the model, and an
    [int] argument of [fprintf] is taken within the range of [int]. *)

From Stdlib Require Import ZArith String Ascii List Bool Lia.
From Stdlib Require Import Decimal DecimalString.
Import ListNotations.

Open Scope Z_scope.
Open Scope list_scope.
Open Scope string_scope.

(* ================================================================== *)
(** ** The enumeration [LogLevel] *)

Inductive LogLevel : Type :=
  | LOG_TRACE
  | LOG_DEBUG
  | LOG_INFO
  | LOG_WARN
  | LOG_ERROR.

(** The integer constant each enumerator stands for.  Objects of the
    enumerated type hold integers, so the state and the macro arguments
    below are [Z]. *)
Definition enum_value (l : LogLevel) : Z :=
  match l with
  | LOG_TRACE => 0
  | LOG_DEBUG => 1
  | LOG_INFO => 2
  | LOG_WARN => 3
  | LOG_ERROR => 4
  end.

(* ================================================================== *)
(** ** The C library, as far as the header uses it *)

(** The line feed, the one-character string the C source writes as "\n". *)
Definition LF : string := String (ascii_of_nat 10) EmptyString.

(** Decimal rendering of an integer, as [%d] prints it. *)
Definition dec (z : Z) : string := NilZero.string_of_int (Z.to_int z).

(** Variadic arguments of [fprintf]: a C string or an [int]. *)
Inductive printf_arg : Type :=
  | ArgS (s : string)
  | ArgD (d : Z).

(** What [fprintf] renders for a format and its arguments.  [None] stands
    for a call whose behaviour the C standard leaves undefined (a missing
    or ill-typed argument, an incomplete conversion) or that uses a
    conversion other than [%s], [%d], [%%].  Arguments in excess are
    ignored, as in C. *)
Fixpoint vformat (fmt : string) (args : list printf_arg) : option string :=
  match fmt with
  | EmptyString => Some EmptyString
  | String c rest =>
      if Ascii.eqb c "%" then
        match rest with
        | EmptyString => None
        | String k rest' =>
            if Ascii.eqb k "s" then
              match args with
              | ArgS s :: args' => option_map (append s) (vformat rest' args')
              | _ => None
              end
            else if Ascii.eqb k "d" then
              match args with
              | ArgD d :: args' => option_map (append (dec d)) (vformat rest' args')
              | _ => None
              end
            else if Ascii.eqb k "%" then
              option_map (String "%") (vformat rest' args)
            else None
        end
      else option_map (String c) (vformat rest args)
  end.

(** [struct tm], the fields the header's format reads. *)
Record tm : Type := mk_tm {
  tm_sec : Z;
  tm_min : Z;
  tm_hour : Z;
  tm_mday : Z;
  tm_mon : Z;
  tm_year : Z
}.

(** A field printed on two digits, zero padded ([%m], [%d], [%H], [%M], [%S]). *)
Definition dec2 (n : Z) : string :=
  if (n <? 10)%Z then String "0" (dec n) else dec n.

(** One [strftime] conversion. *)
Definition strftime_conv (k : ascii) (t : tm) : option string :=
  if Ascii.eqb k "Y" then Some (dec (tm_year t + 1900))
  else if Ascii.eqb k "m" then Some (dec2 (tm_mon t + 1))
  else if Ascii.eqb k "d" then Some (dec2 (tm_mday t))
  else if Ascii.eqb k "H" then Some (dec2 (tm_hour t))
  else if Ascii.eqb k "M" then Some (dec2 (tm_min t))
  else if Ascii.eqb k "S" then Some (dec2 (tm_sec t))
  else if Ascii.eqb k "%" then Some "%"
  else None.

(** The characters a format stands for at a broken-down time. *)
Fixpoint strftime_text (format : string) (t : tm) : option string :=
  match format with
  | EmptyString => Some EmptyString
  | String c rest =>
      if Ascii.eqb c "%" then
        match rest with
        | EmptyString => None
        | String k rest' =>
            match strftime_conv k t, strftime_text rest' t with
            | Some s, Some r => Some (s ++ r)
            | _, _ => None
            end
        end
      else option_map (String c) (strftime_text rest t)
  end.

(** [strftime(s, maxsize, format, t)] (C11 7.27.3.5): when the resulting
    characters, the terminating null included, number at most [maxsize],
    they are stored and their count (null excluded) is returned; otherwise
    zero is returned and the contents of the array are indeterminate.
    [residue] is the string found in the array in that second case: any
    string at all, chosen by the C library.  The result is the returned
    count and the string then held by the array. *)
Definition strftime (residue : string) (maxsize : Z) (format : string) (t : tm)
  : option (Z * string) :=
  match strftime_text format t with
  | Some text =>
      if (Z.of_nat (String.length text) + 1 <=? maxsize)%Z
      then Some (Z.of_nat (String.length text), text)
      else Some (0, residue)
  | None => None
  end.

(** What the C library supplies to one call of [get_time_str]: the local
    time [localtime(&now)] points to, and the indeterminate contents a
    failed [strftime] leaves behind. *)
Record libc_time : Type := mk_libc_time {
  localtime_now : tm;
  residue : string
}.

(** Output streams: the standard error stream or an open file. *)
Inductive stream : Type :=
  | stderr
  | fstream (h : nat).

(** A [FILE *]: [None] is the null pointer. *)
Definition FILE_ptr : Type := option nat.

(* ================================================================== *)
(** ** Process state *)

(** What the process does, in program order. *)
Inductive event : Type :=
  | Fprintf (s : stream) (text : string)
  | Fflush (s : stream)
  | ErrnoStore (v : Z).

Record process : Type := mk_process {
  log_level : Z;          (* static LogLevel log_level = LOG_TRACE; *)
  log_file : FILE_ptr;    (* static FILE *log_file = NULL; *)
  errno : Z;
  trace : list event
}.

(** The state at program start. *)
Definition initial_process : process :=
  {| log_level := enum_value LOG_TRACE; log_file := None; errno := 0; trace := [] |}.

(** Computations: a result and a new state, or [None] when the behaviour is
    undefined. *)
Definition Proc (A : Type) : Type := process -> option (A * process).

Definition ret {A : Type} (a : A) : Proc A := fun p => Some (a, p).

Definition bind {A B : Type} (m : Proc A) (k : A -> Proc B) : Proc B :=
  fun p => match m p with
           | Some (a, p') => k a p'
           | None => None
           end.

Definition undefined {A : Type} : Proc A := fun _ => None.

Definition lift {A : Type} (o : option A) : Proc A :=
  match o with
  | Some a => ret a
  | None => undefined
  end.

Notation "x <- m ;; k" := (bind m (fun x => k))
  (at level 61, m at next level, right associativity).
Notation "m ;;; k" := (bind m (fun _ => k))
  (at level 61, right associativity).

Definition read {A : Type} (field : process -> A) : Proc A :=
  fun p => Some (field p, p).

Definition emit (e : event) : Proc unit :=
  fun p => Some (tt, {| log_level := log_level p; log_file := log_file p;
                        errno := errno p; trace := (trace p ++ [e])%list |}).

Definition fprintf (s : stream) (fmt : string) (args : list printf_arg) : Proc unit :=
  text <- lift (vformat fmt args) ;; emit (Fprintf s text).

Definition fflush (s : stream) : Proc unit := emit (Fflush s).

(** [errno = v;] *)
Definition store_errno (v : Z) : Proc unit :=
  fun p => Some (tt, {| log_level := log_level p; log_file := log_file p;
                        errno := v; trace := (trace p ++ [ErrnoStore v])%list |}).

(* ================================================================== *)
(** ** The header *)

(** [#define log_set_level(level) (log_level = (level))].  The integer
    type of [LogLevel] is the implementation's choice ([unsigned int] with
    gcc and clang); the model stores the mathematical integer, which is
    what the object holds for the enumerators and for every value from 0 to
    [INT_MAX].  Other values are converted by the code and are outside the
    model. *)
Definition log_set_level (level : Z) : Proc Z :=
  fun p => Some (level, {| log_level := level; log_file := log_file p;
                           errno := errno p; trace := trace p |}).

(** [#define log_set_file(file) (log_file = fopen((file), "a"))].
    [fopen] is the file system's answer, a stream or the null pointer.  A
    call that fails also stores an error number in [errno] (ENOENT, EACCES,
    ...): [fopen_errno] gives the value [errno] has after a failed call,
    from the path, the mode and the value before.  The store is the C
    library's, not a statement of the header, and is not in the trace. *)
Definition log_set_file (fopen : string -> string -> FILE_ptr)
    (fopen_errno : string -> string -> Z -> Z) (file : string)
  : Proc FILE_ptr :=
  fun p => let f := fopen file "a" in
           Some (f, {| log_level := log_level p; log_file := f;
                       errno := match f with
                                | Some _ => errno p
                                | None => fopen_errno file "a" (errno p)
                                end;
                       trace := trace p |}).

(** The place of a macro invocation: [__FILE__] and [__LINE__]. *)
Record call_site : Type := mk_call_site {
  __FILE__ : string;
  __LINE__ : Z
}.

(** [const char *get_log_level_str(LogLevel level)]: [level_str[level]];
    indexing outside the five-element array is undefined. *)
Definition level_str : list string :=
  ["TRACE"; "DEBUG"; "INFO"; "WARN"; "ERROR"].

Definition get_log_level_str (level : Z) : option string :=
  if (level <? 0)%Z then None else nth_error level_str (Z.to_nat level).

(** [static char time_str[20];] *)
Definition sizeof_time_str : Z := 20.

(** [const char *get_time_str(void)]: the string in [time_str] after
    [strftime(time_str, sizeof(time_str) - 1, "%Y-%m-%d %H:%M:%S", t)]. *)
Definition time_format : string := "%Y-%m-%d %H:%M:%S".

Definition get_time_str (lc : libc_time) : option string :=
  option_map snd
    (strftime (residue lc) (sizeof_time_str - 1) time_format (localtime_now lc)).

(** [#define LOG_FMT "%s [%s] (%s:%d) "] *)
Definition LOG_FMT : string := "%s [%s] (%s:%d) ".

(** [#define LOG_ARGS(LOG_LVL) get_log_level_str(LOG_LVL), get_time_str(),
    __FILE__, __LINE__] *)
Definition LOG_ARGS (cs : call_site) (lc : libc_time) (LOG_LVL : Z)
  : option (list printf_arg) :=
  match get_log_level_str LOG_LVL, get_time_str lc with
  | Some name, Some ts => Some [ArgS name; ArgS ts; ArgS (__FILE__ cs); ArgD (__LINE__ cs)]
  | _, _ => None
  end.

(** [#define log_log(level, ...)]: the variadic part is a format and its
    arguments.  The test [level >= log_level] is on mathematical integers,
    as the code's is for levels and minimum levels from 0 to [INT_MAX]; a
    negative level, which the code compares after conversion to the type
    of [LogLevel], is outside the model. *)
Definition log_log (cs : call_site) (lc : libc_time)
    (level : Z) (fmt : string) (args : list printf_arg) : Proc unit :=
  min <- read log_level ;;
  if (level >=? min)%Z then
    f <- read log_file ;;
    match f with
    | Some h =>
        a <- lift (LOG_ARGS cs lc level) ;;
        fprintf (fstream h) LOG_FMT a ;;;
        fprintf (fstream h) fmt args ;;;
        fprintf (fstream h) LF [] ;;;
        fflush (fstream h)
    | None =>
        a <- lift (LOG_ARGS cs lc level) ;;
        fprintf stderr LOG_FMT a ;;;
        fprintf stderr fmt args ;;;
        fprintf stderr LF []
    end
  else ret tt.

Definition log_trace cs lc fmt args := log_log cs lc (enum_value LOG_TRACE) fmt args.
Definition log_debug cs lc fmt args := log_log cs lc (enum_value LOG_DEBUG) fmt args.
Definition log_info cs lc fmt args := log_log cs lc (enum_value LOG_INFO) fmt args.
Definition log_warn cs lc fmt args := log_log cs lc (enum_value LOG_WARN) fmt args.
Definition log_error cs lc fmt args := log_log cs lc (enum_value LOG_ERROR) fmt args.

(** How a statement ends: control falls through to the next statement, or
    jumps to a label of the enclosing function. *)
Inductive control : Type :=
  | Next
  | Goto (label : string).

(** [#define check(A, M, ...) if (!(A)) { log_error(M, ##__VA_ARGS__);
    errno = 0; goto error; }]; [A] is a scalar, and [!(A)] holds when it
    compares equal to zero (a null pointer is zero). *)
Definition check (cs : call_site) (lc : libc_time)
    (A : Z) (M : string) (args : list printf_arg) : Proc control :=
  if (A =? 0)%Z then
    log_error cs lc M args ;;;
    store_errno 0 ;;;
    ret (Goto "error")
  else ret Next.

(** [#define check_mem(A) check((A), "Out of memory.")] *)
Definition check_mem (cs : call_site) (lc : libc_time) (A : Z) : Proc control :=
  check cs lc A "Out of memory." [].

(** [#define check_debug(A, M, ...) if (!(A)) { log_debug(M, ##__VA_ARGS__);
    errno = 0; goto error; }] *)
Definition check_debug (cs : call_site) (lc : libc_time)
    (A : Z) (M : string) (args : list printf_arg) : Proc control :=
  if (A =? 0)%Z then
    log_debug cs lc M args ;;;
    store_errno 0 ;;;
    ret (Goto "error")
  else ret Next.

(** A block of statements: they run in order until one of them jumps. *)
Fixpoint exec_block (body : list (Proc control)) : Proc control :=
  match body with
  | [] => ret Next
  | s :: rest =>
      c <- s ;;
      match c with
      | Next => exec_block rest
      | Goto l => ret (Goto l)
      end
  end.

(** A function body whose code after the label [error:] is [on_error]:
    the block runs, and a jump to that label runs [on_error]. *)
Definition exec_with_error_label (body : list (Proc control)) (on_error : Proc unit)
  : Proc unit :=
  c <- exec_block body ;;
  match c with
  | Next => ret tt
  | Goto l => if String.eqb l "error" then on_error else undefined
  end.

(** One invocation of [log_log]: where, when, and with which arguments. *)
Record invocation : Type := mk_invocation {
  inv_site : call_site;
  inv_time : libc_time;
  inv_level : LogLevel;
  inv_fmt : string;
  inv_args : list printf_arg
}.

Definition log_invocation (c : invocation) : Proc unit :=
  log_log (inv_site c) (inv_time c) (enum_value (inv_level c)) (inv_fmt c) (inv_args c).

(** What a program does with the logger once the sink is chosen: it logs,
    and it may change the minimum level. *)
Inductive logger_call : Type :=
  | Call_log_log (c : invocation)
  | Call_log_set_level (l : LogLevel).

Definition run_call (k : logger_call) : Proc unit :=
  match k with
  | Call_log_log c => log_invocation c
  | Call_log_set_level l => log_set_level (enum_value l) ;;; ret tt
  end.

(** Calls one after the other. *)
Fixpoint run_calls (ks : list logger_call) : Proc unit :=
  match ks with
  | [] => ret tt
  | k :: rest => run_call k ;;; run_calls rest
  end.

(** The five convenience wrappers. *)
Definition wrappers
  : list (call_site -> libc_time -> string -> list printf_arg -> Proc unit) :=
  [log_trace; log_debug; log_info; log_warn; log_error].

(* ================================================================== *)
(** ** Vocabulary of the statements *)

(** The state [p] after the further actions [evs]. *)
Definition after (p : process) (evs : list event) : process :=
  {| log_level := log_level p; log_file := log_file p;
     errno := errno p; trace := (trace p ++ evs)%list |}.

(** The stream [log_log] writes to: the file when [log_file] is set, the
    standard error stream otherwise. *)
Definition active_stream (f : FILE_ptr) : stream :=
  match f with
  | Some h => fstream h
  | None => stderr
  end.

Definition stream_eqb (a b : stream) : bool :=
  match a, b with
  | stderr, stderr => true
  | fstream h, fstream k => Nat.eqb h k
  | _, _ => false
  end.

(** The characters a sequence of actions writes to the stream [s]. *)
Fixpoint written (s : stream) (evs : list event) : string :=
  match evs with
  | [] => EmptyString
  | Fprintf s' text :: rest =>
      if stream_eqb s s' then text ++ written s rest else written s rest
  | _ :: rest => written s rest
  end.

(** The string [get_time_str] returns (it always returns one, see
    [get_time_str_returns]). *)
Definition timestamp (lc : libc_time) : string :=
  match get_time_str lc with
  | Some ts => ts
  | None => EmptyString
  end.

(** The name of a level, as the specification lists them. *)
Definition level_name (l : LogLevel) : string :=
  match l with
  | LOG_TRACE => "TRACE"
  | LOG_DEBUG => "DEBUG"
  | LOG_INFO => "INFO"
  | LOG_WARN => "WARN"
  | LOG_ERROR => "ERROR"
  end.

(** The annotation in front of a message: level, timestamp, place. *)
Definition prefix (name ts : string) (cs : call_site) : string :=
  name ++ " [" ++ ts ++ "] (" ++ __FILE__ cs ++ ":" ++ dec (__LINE__ cs) ++ ") ".

(** The actions of one record: three writes to the active stream, and a
    flush when that stream is a file. *)
Definition record_events (f : FILE_ptr) (pre body : string) : list event :=
  match f with
  | Some h => [Fprintf (fstream h) pre; Fprintf (fstream h) body;
               Fprintf (fstream h) LF; Fflush (fstream h)]
  | None => [Fprintf stderr pre; Fprintf stderr body; Fprintf stderr LF]
  end.

(** The message an invocation renders. *)
Definition inv_body (c : invocation) : string :=
  match vformat (inv_fmt c) (inv_args c) with
  | Some b => b
  | None => EmptyString
  end.

(** A call whose message [fprintf] can render. *)
Definition well_formed_call (k : logger_call) : Prop :=
  match k with
  | Call_log_log c => vformat (inv_fmt c) (inv_args c) <> None
  | Call_log_set_level _ => True
  end.

(** An action that is a write to the standard error stream. *)
Definition writes_to_stderr (e : event) : Prop :=
  exists text, e = Fprintf stderr text.

(** A broken-down time of the years 1000 to 9999, every field in its range. *)
Definition calendar_time (t : tm) : Prop :=
  0 <= tm_sec t <= 60 /\ 0 <= tm_min t <= 59 /\ 0 <= tm_hour t <= 23 /\
  1 <= tm_mday t <= 31 /\ 0 <= tm_mon t <= 11 /\
  1000 <= tm_year t + 1900 <= 9999.

(** Concrete data of the examples. *)
Definition site_x_c_10 : call_site := {| __FILE__ := "x.c"; __LINE__ := 10 |}.
Definition site_main_c_42 : call_site := {| __FILE__ := "main.c"; __LINE__ := 42 |}.

(** 2024-03-01 10:15:22. *)
Definition tm_2024_03_01 : tm :=
  {| tm_sec := 22; tm_min := 15; tm_hour := 10; tm_mday := 1; tm_mon := 2; tm_year := 124 |}.

(** That time, on a C library that stores field after field and stops at
    the first one that does not fit, the array being zero before. *)
Definition clock_2024 : libc_time :=
  {| localtime_now := tm_2024_03_01; residue := "2024-03-01 10:15:" |}.

(** No file can be opened. *)
Definition fopen_fails : string -> string -> FILE_ptr := fun _ _ => None.

(** Every failed [fopen] stores ENOENT, which is 2. *)
Definition fopen_sets_ENOENT : string -> string -> Z -> Z := fun _ _ _ => 2.

(* ================================================================== *)
(** ** The rest of the header, and more vocabulary *)

(** [#define clean_errno() (errno == 0 ? "None" : strerror(errno))];
    [strerror] is the C library's table of messages. *)
Definition clean_errno (strerror : Z -> string) : Proc string :=
  e <- read errno ;;
  ret (if (e =? 0)%Z then "None" else strerror e).

(** One use of [check]: where, when, on which condition, with which
    message. *)
Record guard : Type := mk_guard {
  g_site : call_site;
  g_time : libc_time;
  g_cond : Z;
  g_msg : string;
  g_args : list printf_arg
}.

Definition guard_stmt (g : guard) : Proc control :=
  check (g_site g) (g_time g) (g_cond g) (g_msg g) (g_args g).

(** An action on the stream [s]: a write to it or a flush of it. *)
Definition on_stream (s : stream) (e : event) : Prop :=
  (exists text, e = Fprintf s text) \/ e = Fflush s.

(** A string without the character that starts a conversion. *)
Fixpoint no_percent (s : string) : bool :=
  match s with
  | EmptyString => true
  | String c rest => negb (Ascii.eqb c "%") && no_percent rest
  end.

(** [fopen] opens every file, as the stream [h]. *)
Definition fopen_opens (h : nat) : string -> string -> FILE_ptr := fun _ _ => Some h.

(** A [strerror] for the examples. *)
Definition strerror_example (e : Z) : string :=
  if (e =? 2)%Z then "No such file or directory" else "Unknown error".

(* ================================================================== *)
(** ** Running computations *)

Lemma append_empty_r (s : string) : s ++ "" = s.
Proof. induction s as [|c s IH]; simpl; [reflexivity | now rewrite IH]. Qed.

Lemma length_append (s t : string) :
  String.length (s ++ t) = (String.length s + String.length t)%nat.
Proof. induction s as [|c s IH]; simpl; [reflexivity | now rewrite IH]. Qed.

Lemma bind_run {A B : Type} (m : Proc A) (k : A -> Proc B) p a p' :
  m p = Some (a, p') -> bind m k p = k a p'.
Proof. intros H. unfold bind. now rewrite H. Qed.

(** One step of a sequence whose first computation is known. *)
Tactic Notation "step" uconstr(H) := rewrite (bind_run _ _ _ _ _ H).

Lemma after_after p evs evs' :
  after (after p evs) evs' = after p (evs ++ evs')%list.
Proof. unfold after. simpl. now rewrite app_assoc. Qed.

Lemma fflush_run s p : fflush s p = Some (tt, after p [Fflush s]).
Proof. reflexivity. Qed.

Lemma fprintf_run s fmt args text p :
  vformat fmt args = Some text ->
  fprintf s fmt args p = Some (tt, after p [Fprintf s text]).
Proof. intros H. unfold fprintf. now rewrite H. Qed.

Lemma vformat_LF : vformat LF [] = Some LF.
Proof. reflexivity. Qed.

Lemma vformat_LOG_FMT name ts cs :
  vformat LOG_FMT [ArgS name; ArgS ts; ArgS (__FILE__ cs); ArgD (__LINE__ cs)]
  = Some (prefix name ts cs).
Proof. reflexivity. Qed.

(* ================================================================== *)
(** ** The helper functions *)

Lemma get_log_level_str_enum l :
  get_log_level_str (enum_value l) = Some (level_name l).
Proof. destruct l; reflexivity. Qed.

Lemma get_log_level_str_outside z :
  z < 0 \/ 4 < z -> get_log_level_str z = None.
Proof.
  intros [H|H]; unfold get_log_level_str.
  - destruct (Z.ltb_spec z 0); [reflexivity | lia].
  - destruct (Z.ltb_spec z 0); [reflexivity |].
    apply nth_error_None. simpl. lia.
Qed.

Lemma strftime_text_time_format t :
  strftime_text time_format t
  = Some (dec (tm_year t + 1900) ++ "-" ++ dec2 (tm_mon t + 1) ++ "-" ++
          dec2 (tm_mday t) ++ " " ++ dec2 (tm_hour t) ++ ":" ++
          dec2 (tm_min t) ++ ":" ++ dec2 (tm_sec t)).
Proof.
  unfold time_format. cbn [strftime_text strftime_conv Ascii.eqb Bool.eqb option_map].
  now rewrite append_empty_r.
Qed.

Lemma get_time_str_returns lc : get_time_str lc = Some (timestamp lc).
Proof.
  unfold timestamp, get_time_str, strftime.
  rewrite strftime_text_time_format.
  now destruct (_ <=? _)%Z.
Qed.

Lemma LOG_ARGS_enum cs lc l :
  LOG_ARGS cs lc (enum_value l)
  = Some [ArgS (level_name l); ArgS (timestamp lc); ArgS (__FILE__ cs); ArgD (__LINE__ cs)].
Proof.
  unfold LOG_ARGS. now rewrite get_log_level_str_enum, get_time_str_returns.
Qed.

(* ================================================================== *)
(** ** [log_log] *)

(** Below the minimum level [log_log] does nothing at all, whatever the
    level, the format and the arguments are. *)
Lemma log_log_below cs lc level fmt args p :
  level < log_level p ->
  log_log cs lc level fmt args p = Some (tt, p).
Proof.
  intros H. unfold log_log, bind, read.
  rewrite Z.geb_leb. destruct (Z.leb_spec (log_level p) level); [lia | reflexivity].
Qed.

(** At or above the minimum level, [log_log] performs the actions of one
    record. *)
Lemma log_log_emits cs lc l fmt args body p :
  log_level p <= enum_value l ->
  vformat fmt args = Some body ->
  log_log cs lc (enum_value l) fmt args p
  = Some (tt, after p (record_events (log_file p)
                         (prefix (level_name l) (timestamp lc) cs) body)).
Proof.
  intros H Hb. unfold log_log, bind at 1, read.
  rewrite Z.geb_leb. destruct (Z.leb_spec (log_level p) (enum_value l)); [| lia].
  unfold bind at 1.
  assert (Hl : lift (LOG_ARGS cs lc (enum_value l)) p
               = Some ([ArgS (level_name l); ArgS (timestamp lc);
                        ArgS (__FILE__ cs); ArgD (__LINE__ cs)], p))
    by now rewrite LOG_ARGS_enum.
  destruct (log_file p) as [h|] eqn:Hf; step Hl.
  - step (fprintf_run _ _ _ _ _ (vformat_LOG_FMT _ _ _)).
    step (fprintf_run _ _ _ _ _ Hb).
    step (fprintf_run _ _ _ _ _ vformat_LF).
    rewrite fflush_run, !after_after. reflexivity.
  - step (fprintf_run _ _ _ _ _ (vformat_LOG_FMT _ _ _)).
    step (fprintf_run _ _ _ _ _ Hb).
    rewrite (fprintf_run _ _ _ _ _ vformat_LF), !after_after. reflexivity.
Qed.

(** Whatever [log_log] is given, a state it returns has the fields of the
    state it started from, the trace apart. *)
Lemma log_log_frame cs lc level fmt args p u p' :
  log_log cs lc level fmt args p = Some (u, p') ->
  log_level p' = log_level p /\ log_file p' = log_file p /\ errno p' = errno p.
Proof.
  unfold log_log, bind, read, lift, fprintf, fflush, emit, ret, undefined.
  destruct (level >=? log_level p)%Z.
  - destruct (log_file p) as [h|] eqn:Hf;
      destruct (LOG_ARGS cs lc level) as [a|]; try discriminate;
      unfold bind, lift, ret, undefined;
      destruct (vformat LOG_FMT a); try discriminate;
      destruct (vformat fmt args); try discriminate; simpl;
      intros [= <- <-]; simpl; auto.
  - intros [= <- <-]. auto.
Qed.

Lemma append_assoc (a b c : string) : (a ++ b) ++ c = a ++ (b ++ c).
Proof. induction a as [|x a IH]; simpl; [reflexivity | now rewrite IH]. Qed.

(** What a record writes to the active stream. *)
Lemma written_record f pre body :
  written (active_stream f) (record_events f pre body) = pre ++ body ++ LF.
Proof.
  destruct f as [h|]; simpl; rewrite ?Nat.eqb_refl; reflexivity.
Qed.

Lemma record_events_shape f pre body :
  record_events f pre body
  = ([Fprintf (active_stream f) pre; Fprintf (active_stream f) body;
      Fprintf (active_stream f) LF]
     ++ match f with Some h => [Fflush (fstream h)] | None => [] end)%list.
Proof. destruct f; reflexivity. Qed.



(** The line of a record, around the string [get_time_str] returns: the
    level name, a space, that string in square brackets, a space, the file
    name and the line number in parentheses with a colon between them, a
    space, the formatted message and a line feed. *)
Lemma log_log_line_format :
  forall (min lvl : LogLevel) (f : FILE_ptr) (e : Z) (tr : list event)
         (cs : call_site) (lc : libc_time) (fmt : string) (args : list printf_arg)
         (body : string),
    enum_value lvl >= enum_value min ->
    vformat fmt args = Some body ->
    get_time_str lc = Some (timestamp lc) /\
    exists evs,
      log_log cs lc (enum_value lvl) fmt args (mk_process (enum_value min) f e tr)
      = Some (tt, mk_process (enum_value min) f e (tr ++ evs)%list) /\
      written (active_stream f) evs
      = level_name lvl ++ " [" ++ timestamp lc ++ "] (" ++ __FILE__ cs ++ ":"
        ++ dec (__LINE__ cs) ++ ") " ++ body ++ LF.
Proof.
  intros min lvl f e tr cs lc fmt args body Hle Hb.
  split; [apply get_time_str_returns |].
  eexists. split.
  - rewrite (log_log_emits cs lc lvl fmt args body (mk_process (enum_value min) f e tr)
               ltac:(simpl; lia) Hb).
    reflexivity.
  - simpl log_file. rewrite written_record. unfold prefix.
    repeat (rewrite append_assoc; simpl). reflexivity.
Qed.

(** C6 (flushing).  For every emitted record the actions are the three
    writes to the active stream, followed at once by a flush of the file
    when [log_file] is set, and by nothing when it is not: a flush occurs
    if and only if an explicit file sink is set, and a record that goes to
    the standard error stream is not flushed. *)
Theorem log_log_flushes_file_only :
  forall (min lvl : LogLevel) (f : FILE_ptr) (e : Z) (tr : list event)
         (cs : call_site) (lc : libc_time) (fmt : string) (args : list printf_arg)
         (body : string),
    enum_value lvl >= enum_value min ->
    vformat fmt args = Some body ->
    exists pre evs,
      log_log cs lc (enum_value lvl) fmt args (mk_process (enum_value min) f e tr)
      = Some (tt, mk_process (enum_value min) f e (tr ++ evs)%list) /\
      evs = ([Fprintf (active_stream f) pre; Fprintf (active_stream f) body;
              Fprintf (active_stream f) LF]
             ++ match f with
                | Some h => [Fflush (fstream h)]
                | None => []
                end)%list /\
      ((exists s, In (Fflush s) evs) <-> f <> None) /\
      (forall s, In (Fflush s) evs -> s <> stderr).
Proof.
  intros min lvl f e tr cs lc fmt args body Hle Hb.
  exists (prefix (level_name lvl) (timestamp lc) cs).
  eexists. split; [| split; [reflexivity |]].
  - rewrite (log_log_emits cs lc lvl fmt args body (mk_process (enum_value min) f e tr)
               ltac:(simpl; lia) Hb).
    simpl log_file. rewrite record_events_shape. reflexivity.
  - destruct f as [h|]; simpl; split.
    + split; [discriminate | intros _; exists (fstream h); tauto].
    + intros s [H|[H|[H|[H|[]]]]]; try discriminate. injection H as <-. discriminate.
    + split; [| congruence]. intros (s & [H|[H|[H|[]]]]); discriminate.
    + intros s [H|[H|[H|[]]]]; discriminate.
Qed.

Lemma log_log_flushes_file_only_witness :
  exists pre evs,
    log_log site_x_c_10 clock_2024 (enum_value LOG_ERROR) "disk %d" [ArgD 3]
      (mk_process (enum_value LOG_WARN) (Some 7%nat) 0 [])
    = Some (tt, mk_process (enum_value LOG_WARN) (Some 7%nat) 0 ([] ++ evs)%list) /\
    evs = ([Fprintf (active_stream (Some 7%nat)) pre;
            Fprintf (active_stream (Some 7%nat)) "disk 3";
            Fprintf (active_stream (Some 7%nat)) LF]
           ++ [Fflush (fstream 7)])%list /\
    ((exists s, In (Fflush s) evs) <-> Some 7%nat <> None) /\
    (forall s, In (Fflush s) evs -> s <> stderr).
Proof.
  apply (log_log_flushes_file_only LOG_WARN LOG_ERROR (Some 7%nat) 0 [] site_x_c_10
           clock_2024 "disk %d" [ArgD 3] "disk 3").
  - simpl. lia.
  - reflexivity.
Defined.

Lemma wrappers_are_log_log w :
  In w wrappers ->
  exists l : LogLevel, forall cs lc fmt args, w cs lc fmt args = log_log cs lc (enum_value l) fmt args.
Proof.
  intros [<-|[<-|[<-|[<-|[<-|[]]]]]];
    [exists LOG_TRACE | exists LOG_DEBUG | exists LOG_INFO | exists LOG_WARN | exists LOG_ERROR];
    reflexivity.
Qed.

Lemma log_log_returns cs lc (l : LogLevel) fmt args body p :
  vformat fmt args = Some body ->
  exists p', log_log cs lc (enum_value l) fmt args p = Some (tt, p').
Proof.
  intros Hb. destruct (Z_lt_le_dec (enum_value l) (log_level p)) as [H|H].
  - exists p. now apply log_log_below.
  - eexists. now apply (log_log_emits cs lc l fmt args body p H Hb).
Qed.

(** C10 (frame).  Every call of [log_log], and so of each of the wrappers
    [log_trace], [log_debug], [log_info], [log_warn] and [log_error], leaves
    [log_level] and [log_file] as they were, whether or not a record was
    emitted; and a call at a level of the enumeration with a well-formed
    message does return. *)
Theorem log_log_preserves_logger_state :
  (forall cs lc level fmt args p u p',
     log_log cs lc level fmt args p = Some (u, p') ->
     log_level p' = log_level p /\ log_file p' = log_file p)
  /\
  (forall cs lc (l : LogLevel) fmt args body p,
     vformat fmt args = Some body ->
     exists p', log_log cs lc (enum_value l) fmt args p = Some (tt, p') /\
                log_level p' = log_level p /\ log_file p' = log_file p)
  /\
  (forall w, In w wrappers ->
     forall cs lc fmt args p,
       (forall u p', w cs lc fmt args p = Some (u, p') ->
                     log_level p' = log_level p /\ log_file p' = log_file p) /\
       (forall body, vformat fmt args = Some body ->
          exists p', w cs lc fmt args p = Some (tt, p') /\
                     log_level p' = log_level p /\ log_file p' = log_file p)).
Proof.
  assert (F : forall cs lc level fmt args p u p',
             log_log cs lc level fmt args p = Some (u, p') ->
             log_level p' = log_level p /\ log_file p' = log_file p).
  { intros * H. apply log_log_frame in H. tauto. }
  assert (R : forall cs lc (l : LogLevel) fmt args body p,
             vformat fmt args = Some body ->
             exists p', log_log cs lc (enum_value l) fmt args p = Some (tt, p') /\
                        log_level p' = log_level p /\ log_file p' = log_file p).
  { intros * Hb. destruct (log_log_returns cs lc l fmt args body p Hb) as [p' E].
    exists p'. split; [exact E | exact (F _ _ _ _ _ _ _ _ E)]. }
  split; [exact F | split; [exact R |]].
  intros w Hw cs lc fmt args p.
  destruct (wrappers_are_log_log w Hw) as [l E]. rewrite E. split.
  - intros u p'. apply F.
  - intros body. apply R.
Qed.

Lemma log_log_preserves_logger_state_witness :
  exists p',
    log_log site_x_c_10 clock_2024 (enum_value LOG_WARN) "hello %s" [ArgS "world"]
      (mk_process (enum_value LOG_DEBUG) (Some 7%nat) 0 [])
    = Some (tt, p') /\
    log_level p' = log_level (mk_process (enum_value LOG_DEBUG) (Some 7%nat) 0 []) /\
    log_file p' = log_file (mk_process (enum_value LOG_DEBUG) (Some 7%nat) 0 []).
Proof.
  apply (proj1 (proj2 log_log_preserves_logger_state) site_x_c_10 clock_2024 LOG_WARN
           "hello %s" [ArgS "world"] "hello world").
  reflexivity.
Defined.

(* ================================================================== *)
(** ** The guard macros *)

Lemma store_errno_run v p :
  store_errno v p
  = Some (tt, {| log_level := log_level p; log_file := log_file p; errno := v;
                 trace := (trace p ++ [ErrnoStore v])%list |}).
Proof. reflexivity. Qed.

(** A guard whose condition holds does nothing. *)
Lemma check_true cs lc A M args p :
  A <> 0 -> check cs lc A M args p = Some (Next, p).
Proof.
  intros H. unfold check. destruct (Z.eqb_spec A 0); [contradiction | reflexivity].
Qed.

Lemma check_debug_true cs lc A M args p :
  A <> 0 -> check_debug cs lc A M args p = Some (Next, p).
Proof.
  intros H. unfold check_debug. destruct (Z.eqb_spec A 0); [contradiction | reflexivity].
Qed.

(** A failed [check]: the record of [log_error], then the store to [errno],
    then the jump. *)
Lemma check_false cs lc M args body p :
  log_level p <= enum_value LOG_ERROR ->
  vformat M args = Some body ->
  check cs lc 0 M args p
  = Some (Goto "error",
          {| log_level := log_level p; log_file := log_file p; errno := 0;
             trace := (trace p
                       ++ record_events (log_file p)
                            (prefix "ERROR" (timestamp lc) cs) body
                       ++ [ErrnoStore 0])%list |}).
Proof.
  intros Hl Hb. unfold check, log_error. simpl (0 =? 0)%Z. cbv iota.
  step (log_log_emits cs lc LOG_ERROR M args body p Hl Hb).
  step (store_errno_run 0 _).
  unfold ret, after. simpl. now rewrite <- app_assoc.
Qed.

(** A failed [check_debug]: the record of [log_debug] when the minimum
    level lets it through, then the store to [errno], then the jump. *)
Lemma check_debug_false cs lc M args body p :
  vformat M args = Some body ->
  check_debug cs lc 0 M args p
  = Some (Goto "error",
          {| log_level := log_level p; log_file := log_file p; errno := 0;
             trace := (trace p
                       ++ (if (log_level p <=? enum_value LOG_DEBUG)%Z
                           then record_events (log_file p)
                                  (prefix "DEBUG" (timestamp lc) cs) body
                           else [])
                       ++ [ErrnoStore 0])%list |}).
Proof.
  intros Hb. unfold check_debug, log_debug. simpl (0 =? 0)%Z. cbv iota.
  destruct (Z.leb_spec (log_level p) (enum_value LOG_DEBUG)) as [Hl|Hl].
  - step (log_log_emits cs lc LOG_DEBUG M args body p Hl Hb).
    step (store_errno_run 0 _).
    unfold ret, after. simpl. now rewrite <- app_assoc.
  - step (log_log_below cs lc _ M args p Hl).
    step (store_errno_run 0 _).
    reflexivity.
Qed.

Lemma enum_value_le_ERROR (l : LogLevel) : enum_value l <= enum_value LOG_ERROR.
Proof. destruct l; simpl; lia. Qed.

(** A block that starts with a statement that jumps runs none of the
    statements that follow. *)
Lemma exec_block_jump (s : Proc control) rest p l p' :
  s p = Some (Goto l, p') -> exec_block (s :: rest) p = Some (Goto l, p').
Proof. intros H. simpl. now step H. Qed.

(** C3 (guard transfer).  [check] with a condition that holds does nothing:
    control falls through and the state is the one it was given.  With a
    condition that does not hold and a well-formed message it performs, in
    this order, the three writes of one record whose level name is ERROR
    and whose message is the formatted one (and the flush when a file is
    set), the store of zero to [errno], and one jump to the label [error];
    no statement that follows the guard in its block runs, and the code at
    the label runs from the state the guard left. *)
Theorem check_logs_resets_errno_and_jumps :
  forall (min : LogLevel) (f : FILE_ptr) (e : Z) (tr : list event)
         (cs : call_site) (lc : libc_time) (A : Z) (M : string)
         (args : list printf_arg),
    (A <> 0 ->
     check cs lc A M args (mk_process (enum_value min) f e tr)
     = Some (Next, mk_process (enum_value min) f e tr))
    /\
    (forall body,
       A = 0 ->
       vformat M args = Some body ->
       exists p',
         p' = mk_process (enum_value min) f 0
                (tr ++ [Fprintf (active_stream f)
                          ("ERROR [" ++ timestamp lc ++ "] (" ++ __FILE__ cs ++ ":"
                           ++ dec (__LINE__ cs) ++ ") ");
                        Fprintf (active_stream f) body;
                        Fprintf (active_stream f) LF]
                    ++ match f with
                       | Some h => [Fflush (fstream h)]
                       | None => []
                       end
                    ++ [ErrnoStore 0])%list /\
         check cs lc A M args (mk_process (enum_value min) f e tr)
         = Some (Goto "error", p') /\
         (forall rest,
            exec_block (check cs lc A M args :: rest) (mk_process (enum_value min) f e tr)
            = Some (Goto "error", p')) /\
         (forall rest on_error,
            exec_with_error_label (check cs lc A M args :: rest) on_error
              (mk_process (enum_value min) f e tr)
            = on_error p')).
Proof.
  intros min f e tr cs lc A M args. split.
  - apply check_true.
  - intros body -> Hb. eexists. split; [reflexivity |].
    assert (E : check cs lc 0 M args (mk_process (enum_value min) f e tr)
                = Some (Goto "error",
                        mk_process (enum_value min) f 0
                          (tr ++ [Fprintf (active_stream f)
                                    ("ERROR [" ++ timestamp lc ++ "] (" ++ __FILE__ cs
                                     ++ ":" ++ dec (__LINE__ cs) ++ ") ");
                                  Fprintf (active_stream f) body;
                                  Fprintf (active_stream f) LF]
                              ++ match f with
                                 | Some h => [Fflush (fstream h)]
                                 | None => []
                                 end
                              ++ [ErrnoStore 0])%list)).
    { rewrite (check_false cs lc M args body (mk_process (enum_value min) f e tr)
                 (enum_value_le_ERROR min) Hb).
      simpl. rewrite record_events_shape. unfold prefix. simpl.
      reflexivity. }
    split; [exact E | split].
    + intros rest. now apply exec_block_jump.
    + intros rest on_error. unfold exec_with_error_label.
      now step (exec_block_jump _ rest _ _ _ E).
Qed.

Lemma check_logs_resets_errno_and_jumps_witness :
  check site_x_c_10 clock_2024 1 "reason" []
    (mk_process (enum_value LOG_WARN) None 5 [])
  = Some (Next, mk_process (enum_value LOG_WARN) None 5 [])
  /\
  exists p',
    p' = mk_process (enum_value LOG_WARN) None 0
           ([] ++ [Fprintf (active_stream None)
                     ("ERROR [" ++ timestamp clock_2024 ++ "] ("
                      ++ __FILE__ site_x_c_10 ++ ":" ++ dec (__LINE__ site_x_c_10) ++ ") ");
                   Fprintf (active_stream None) "reason";
                   Fprintf (active_stream None) LF]
               ++ [] ++ [ErrnoStore 0])%list /\
    check site_x_c_10 clock_2024 0 "reason" []
      (mk_process (enum_value LOG_WARN) None 5 [])
    = Some (Goto "error", p') /\
    (forall rest,
       exec_block (check site_x_c_10 clock_2024 0 "reason" [] :: rest)
         (mk_process (enum_value LOG_WARN) None 5 [])
       = Some (Goto "error", p')) /\
    (forall rest on_error,
       exec_with_error_label (check site_x_c_10 clock_2024 0 "reason" [] :: rest) on_error
         (mk_process (enum_value LOG_WARN) None 5 [])
       = on_error p').
Proof.
  split.
  - apply (check_logs_resets_errno_and_jumps LOG_WARN None 5 [] site_x_c_10 clock_2024
             1 "reason" []).
    discriminate.
  - apply (check_logs_resets_errno_and_jumps LOG_WARN None 5 [] site_x_c_10 clock_2024
             0 "reason" [] ) with (body := "reason"); reflexivity.
Defined.

(** C7, as the specification states it, fails.  With [log_level] at
    [LOG_INFO] a failed [check] writes a record whose level name is ERROR,
    and a failed [check_debug] at the same place writes no record at all:
    the two differ by more than the level name. *)
Lemma check_debug_writes_nothing_above_debug :
  exists pc pd : process,
    check site_x_c_10 clock_2024 0 "reason" []
      (mk_process (enum_value LOG_INFO) None 5 [])
    = Some (Goto "error", pc) /\
    check_debug site_x_c_10 clock_2024 0 "reason" []
      (mk_process (enum_value LOG_INFO) None 5 [])
    = Some (Goto "error", pd) /\
    written stderr (trace pc) = "ERROR [2024-03-01 10:15:] (x.c:10) reason" ++ LF /\
    written stderr (trace pd) = "" /\
    trace pd = [ErrnoStore 0].
Proof. do 2 eexists. repeat split. Qed.

(** C7, amended.  [check_debug] with a condition that holds does nothing.
    With a condition that does not hold and a well-formed message it hands
    the message to [log_log] at the Debug level, stores zero to [errno] and
    jumps to the label [error], as [check] does at the Error level: when
    [log_level] is Trace or Debug the record is written, with the level
    name DEBUG where [check] has ERROR; when [log_level] is above Debug no
    record is written. *)
Theorem check_debug_logs_at_debug_level :
  forall (min : LogLevel) (f : FILE_ptr) (e : Z) (tr : list event)
         (cs : call_site) (lc : libc_time) (A : Z) (M : string)
         (args : list printf_arg),
    (A <> 0 ->
     check_debug cs lc A M args (mk_process (enum_value min) f e tr)
     = Some (Next, mk_process (enum_value min) f e tr))
    /\
    (forall body,
       A = 0 ->
       vformat M args = Some body ->
       check_debug cs lc A M args (mk_process (enum_value min) f e tr)
       = Some (Goto "error",
               mk_process (enum_value min) f 0
                 (tr ++ (if (enum_value min <=? enum_value LOG_DEBUG)%Z
                         then
                           [Fprintf (active_stream f)
                              ("DEBUG [" ++ timestamp lc ++ "] (" ++ __FILE__ cs ++ ":"
                               ++ dec (__LINE__ cs) ++ ") ");
                            Fprintf (active_stream f) body;
                            Fprintf (active_stream f) LF]
                           ++ match f with
                              | Some h => [Fflush (fstream h)]
                              | None => []
                              end
                         else [])
                     ++ [ErrnoStore 0])%list)
       /\
       exists pc pd,
         check cs lc A M args (mk_process (enum_value min) f e tr)
         = Some (Goto "error", pc) /\
         check_debug cs lc A M args (mk_process (enum_value min) f e tr)
         = Some (Goto "error", pd) /\
         log_level pd = log_level pc /\ log_file pd = log_file pc /\
         errno pd = 0 /\ errno pc = 0).
Proof.
  intros min f e tr cs lc A M args. split.
  - apply check_debug_true.
  - intros body -> Hb.
    pose proof (check_debug_false cs lc M args body
                  (mk_process (enum_value min) f e tr) Hb) as D.
    pose proof (check_false cs lc M args body (mk_process (enum_value min) f e tr)
                  (enum_value_le_ERROR min) Hb) as C.
    split.
    + rewrite D. simpl. rewrite record_events_shape. reflexivity.
    + do 2 eexists. split; [exact C | split; [exact D |]]. simpl. auto.
Qed.

Lemma check_debug_logs_at_debug_level_witness :
  check_debug site_x_c_10 clock_2024 1 "reason" []
    (mk_process (enum_value LOG_DEBUG) None 5 [])
  = Some (Next, mk_process (enum_value LOG_DEBUG) None 5 [])
  /\
  check_debug site_x_c_10 clock_2024 0 "reason" []
    (mk_process (enum_value LOG_DEBUG) None 5 [])
  = Some (Goto "error",
          mk_process (enum_value LOG_DEBUG) None 0
            [Fprintf stderr "DEBUG [2024-03-01 10:15:] (x.c:10) ";
             Fprintf stderr "reason"; Fprintf stderr LF; ErrnoStore 0]).
Proof.
  split.
  - apply (check_debug_logs_at_debug_level LOG_DEBUG None 5 [] site_x_c_10 clock_2024
             1 "reason" []).
    discriminate.
  - apply (proj1 (proj2 (check_debug_logs_at_debug_level LOG_DEBUG None 5 []
                           site_x_c_10 clock_2024 0 "reason" [])
                    "reason" eq_refl eq_refl)).
Defined.

(** C9, as the specification states it, fails: the message of [check_mem]
    ends with a full stop, so a failed [check_mem] and a failed [check]
    with the message "Out of memory" write different records. *)
Lemma check_mem_message_ends_with_full_stop :
  check_mem site_main_c_42 clock_2024 0 initial_process
  = Some (Goto "error",
          mk_process (enum_value LOG_TRACE) None 0
            [Fprintf stderr "ERROR [2024-03-01 10:15:] (main.c:42) ";
             Fprintf stderr "Out of memory."; Fprintf stderr LF; ErrnoStore 0])
  /\
  check site_main_c_42 clock_2024 0 "Out of memory" [] initial_process
  = Some (Goto "error",
          mk_process (enum_value LOG_TRACE) None 0
            [Fprintf stderr "ERROR [2024-03-01 10:15:] (main.c:42) ";
             Fprintf stderr "Out of memory"; Fprintf stderr LF; ErrnoStore 0])
  /\
  check_mem site_main_c_42 clock_2024 0 initial_process
  <> check site_main_c_42 clock_2024 0 "Out of memory" [] initial_process.
Proof. repeat split. discriminate. Qed.

(** C9, amended.  [check_mem] on a pointer is [check] on that pointer with
    the fixed message "Out of memory." (full stop included): a non-null
    pointer does nothing; a null pointer writes one record whose level name
    is ERROR and whose message is that fixed one, stores zero to [errno]
    and jumps to the label [error]. *)
Theorem check_mem_is_check_with_fixed_message :
  forall (min : LogLevel) (f : FILE_ptr) (e : Z) (tr : list event)
         (cs : call_site) (lc : libc_time) (A : Z),
    check_mem cs lc A (mk_process (enum_value min) f e tr)
    = check cs lc A "Out of memory." [] (mk_process (enum_value min) f e tr)
    /\
    (A <> 0 ->
     check_mem cs lc A (mk_process (enum_value min) f e tr)
     = Some (Next, mk_process (enum_value min) f e tr))
    /\
    (A = 0 ->
     check_mem cs lc A (mk_process (enum_value min) f e tr)
     = Some (Goto "error",
             mk_process (enum_value min) f 0
               (tr ++ [Fprintf (active_stream f)
                         ("ERROR [" ++ timestamp lc ++ "] (" ++ __FILE__ cs ++ ":"
                          ++ dec (__LINE__ cs) ++ ") ");
                       Fprintf (active_stream f) "Out of memory.";
                       Fprintf (active_stream f) LF]
                   ++ match f with
                      | Some h => [Fflush (fstream h)]
                      | None => []
                      end
                   ++ [ErrnoStore 0])%list)).
Proof.
  intros min f e tr cs lc A. split; [reflexivity | split].
  - apply check_true.
  - intros ->. unfold check_mem.
    rewrite (check_false cs lc "Out of memory." [] "Out of memory."
               (mk_process (enum_value min) f e tr) (enum_value_le_ERROR min) eq_refl).
    simpl. rewrite record_events_shape. reflexivity.
Qed.

Lemma check_mem_is_check_with_fixed_message_witness :
  check_mem site_main_c_42 clock_2024 4096
    (mk_process (enum_value LOG_WARN) (Some 3%nat) 12 [])
  = Some (Next, mk_process (enum_value LOG_WARN) (Some 3%nat) 12 [])
  /\
  check_mem site_main_c_42 clock_2024 0
    (mk_process (enum_value LOG_WARN) (Some 3%nat) 12 [])
  = Some (Goto "error",
          mk_process (enum_value LOG_WARN) (Some 3%nat) 0
            [Fprintf (fstream 3) "ERROR [2024-03-01 10:15:] (main.c:42) ";
             Fprintf (fstream 3) "Out of memory."; Fprintf (fstream 3) LF;
             Fflush (fstream 3); ErrnoStore 0]).
Proof.
  split.
  - apply (check_mem_is_check_with_fixed_message LOG_WARN (Some 3%nat) 12 []
             site_main_c_42 clock_2024 4096).
    discriminate.
  - apply (proj2 (proj2 (check_mem_is_check_with_fixed_message LOG_WARN (Some 3%nat) 12 []
                           site_main_c_42 clock_2024 0)) eq_refl).
Defined.

(* ================================================================== *)
(** ** [get_log_level_str] *)

(** C8 (level names).  [get_log_level_str] depends on its argument alone,
    so equal arguments give equal strings; the five enumerators map to
    TRACE, DEBUG, INFO, WARN and ERROR, which are non-empty and distinct
    from one another; and outside the enumeration the array access is
    undefined, so that callers must pass enumerators only. *)
Theorem get_log_level_str_mapping :
  (forall a b : Z, a = b -> get_log_level_str a = get_log_level_str b)
  /\
  (get_log_level_str (enum_value LOG_TRACE) = Some "TRACE" /\
   get_log_level_str (enum_value LOG_DEBUG) = Some "DEBUG" /\
   get_log_level_str (enum_value LOG_INFO) = Some "INFO" /\
   get_log_level_str (enum_value LOG_WARN) = Some "WARN" /\
   get_log_level_str (enum_value LOG_ERROR) = Some "ERROR")
  /\
  (forall l : LogLevel, get_log_level_str (enum_value l) <> Some "")
  /\
  (forall l l' : LogLevel,
     get_log_level_str (enum_value l) = get_log_level_str (enum_value l') -> l = l')
  /\
  (forall z : Z, z < 0 \/ 4 < z -> get_log_level_str z = None)
  /\
  (forall z : Z, get_log_level_str z <> None -> exists l : LogLevel, z = enum_value l).
Proof.
  split; [intros a b ->; reflexivity |].
  split; [repeat split |].
  split; [intros l; destruct l; discriminate |].
  split; [intros l l'; destruct l, l'; intros H; try reflexivity; discriminate H |].
  split; [apply get_log_level_str_outside |].
  intros z H.
  destruct (Z_lt_le_dec z 0) as [Hn|Hn];
    [exfalso; apply H, get_log_level_str_outside; lia |].
  destruct (Z_lt_le_dec 4 z) as [Hp|Hp];
    [exfalso; apply H, get_log_level_str_outside; lia |].
  assert (C : z = 0 \/ z = 1 \/ z = 2 \/ z = 3 \/ z = 4) by lia.
  destruct C as [->|[->|[->|[->| ->]]]];
    [exists LOG_TRACE | exists LOG_DEBUG | exists LOG_INFO | exists LOG_WARN | exists LOG_ERROR];
    reflexivity.
Qed.

Lemma get_log_level_str_mapping_witness :
  get_log_level_str 5 = None /\ get_log_level_str (-1) = None /\
  (enum_value LOG_WARN = enum_value LOG_WARN ->
   get_log_level_str (enum_value LOG_WARN) = get_log_level_str (enum_value LOG_WARN)) /\
  LOG_INFO = LOG_INFO.
Proof.
  split; [| split; [| split]].
  - apply (proj1 (proj2 (proj2 (proj2 (proj2 get_log_level_str_mapping))))). lia.
  - apply (proj1 (proj2 (proj2 (proj2 (proj2 get_log_level_str_mapping))))). lia.
  - apply (proj1 get_log_level_str_mapping).
  - apply (proj1 (proj2 (proj2 (proj2 get_log_level_str_mapping)))). reflexivity.
Defined.

(* ================================================================== *)
(** ** [log_set_file] *)

Lemma log_set_level_run level p :
  log_set_level level p
  = Some (level, mk_process level (log_file p) (errno p) (trace p)).
Proof. reflexivity. Qed.

Lemma record_events_on_stderr pre body :
  Forall writes_to_stderr (record_events None pre body).
Proof. repeat constructor; eexists; reflexivity. Qed.

(** While [log_file] is null, one call leaves it null and writes to the
    standard error stream only. *)
Lemma run_call_null_sink k p :
  log_file p = None ->
  well_formed_call k ->
  exists (min : Z) (evs : list event),
    run_call k p = Some (tt, mk_process min None (errno p) (trace p ++ evs)%list) /\
    Forall writes_to_stderr evs.
Proof.
  intros Hf Hw. destruct k as [c|l]; simpl in *.
  - assert (Hb : vformat (inv_fmt c) (inv_args c) = Some (inv_body c)).
    { unfold inv_body. destruct (vformat (inv_fmt c) (inv_args c)); congruence. }
    unfold log_invocation.
    destruct (Z_lt_le_dec (enum_value (inv_level c)) (log_level p)) as [Hl|Hl].
    + exists (log_level p), []. split; [| constructor].
      rewrite (log_log_below _ _ _ _ _ p Hl), app_nil_r.
      destruct p; simpl in *; now subst.
    + exists (log_level p). eexists. split.
      * rewrite (log_log_emits _ _ _ _ _ _ p Hl Hb). unfold after. rewrite Hf.
        reflexivity.
      * apply record_events_on_stderr.
  - exists (enum_value l), []. split; [| constructor].
    rewrite (bind_run _ _ _ _ _ (log_set_level_run _ p)), Hf, app_nil_r. reflexivity.
Qed.

(** The same for any run of calls. *)
Lemma run_calls_null_sink ks :
  forall p,
    log_file p = None ->
    Forall well_formed_call ks ->
    exists (min : Z) (evs : list event),
      run_calls ks p = Some (tt, mk_process min None (errno p) (trace p ++ evs)%list) /\
      Forall writes_to_stderr evs.
Proof.
  induction ks as [|k rest IH]; intros p Hf Hw.
  - exists (log_level p), []. split; [| constructor].
    simpl. unfold ret. rewrite app_nil_r. destruct p; simpl in *; now subst.
  - inversion Hw as [|? ? Hk Hrest]; subst.
    destruct (run_call_null_sink k p Hf Hk) as (m1 & ev1 & E1 & F1).
    destruct (IH (mk_process m1 None (errno p) (trace p ++ ev1)%list) eq_refl Hrest)
      as (m2 & ev2 & E2 & F2).
    exists m2, (ev1 ++ ev2)%list. split.
    + cbn [run_calls]. rewrite (bind_run _ _ _ _ _ E1), E2. simpl.
      now rewrite app_assoc.
    + apply Forall_app. now split.
Qed.

(** C4, as the specification states it, fails: a failed [log_set_file] is
    visible to its caller.  The macro is an assignment expression, and its
    value is the null pointer [fopen] returned; and [errno] holds the error
    number [fopen] stored, so that [clean_errno()] right after the call
    gives the text of the error, not "None". *)
Lemma log_set_file_failure_is_observable :
  log_set_file fopen_fails fopen_sets_ENOENT "/nonexistent/debug.log"
    (mk_process (enum_value LOG_WARN) (Some 7%nat) 0 [])
  = Some (None, mk_process (enum_value LOG_WARN) None 2 [])
  /\
  (log_set_file fopen_fails fopen_sets_ENOENT "/nonexistent/debug.log" ;;;
   clean_errno strerror_example)
    (mk_process (enum_value LOG_WARN) (Some 7%nat) 0 [])
  = Some ("No such file or directory", mk_process (enum_value LOG_WARN) None 2 []).
Proof. split; reflexivity. Qed.

(** C4, amended.  When [fopen] fails on the path, [log_set_file] reports
    nothing itself: it performs no action (no record is written) and
    control goes on; the failure shows only in the value of the macro, the
    null pointer, and in the error number [fopen] stored in [errno].  The
    null pointer is stored in [log_file], whatever sink was set before.
    From then on, over any run of [log_log] and [log_set_level] calls, the
    pointer stays null and every action is a write to the standard error
    stream; and in a state whose [log_file] is null, each [log_log] call
    that passes the level filter writes its record to the standard error
    stream. *)
Theorem log_set_file_failure_falls_back_to_stderr :
  forall (fopen : string -> string -> FILE_ptr)
         (fopen_errno : string -> string -> Z -> Z) (path : string) (p : process),
    fopen path "a" = None ->
    log_set_file fopen fopen_errno path p
    = Some (None, mk_process (log_level p) None (fopen_errno path "a" (errno p))
                    (trace p))
    /\
    (forall ks : list logger_call,
       Forall well_formed_call ks ->
       exists (min : Z) (err : Z) (evs : list event),
         (log_set_file fopen fopen_errno path ;;; run_calls ks) p
         = Some (tt, mk_process min None err (trace p ++ evs)%list) /\
         Forall writes_to_stderr evs)
    /\
    (forall (q : process) (cs : call_site) (lc : libc_time) (lvl : LogLevel)
            (fmt : string) (args : list printf_arg) (body : string),
       log_file q = None ->
       enum_value lvl >= log_level q ->
       vformat fmt args = Some body ->
       exists q' : process,
         log_log cs lc (enum_value lvl) fmt args q = Some (tt, q') /\
         log_file q' = None /\
         log_level q' = log_level q /\
         trace q'
         = (trace q
            ++ [Fprintf stderr
                  (level_name lvl ++ " [" ++ timestamp lc ++ "] ("
                   ++ __FILE__ cs ++ ":" ++ dec (__LINE__ cs) ++ ") ");
                Fprintf stderr body; Fprintf stderr LF])%list).
Proof.
  intros fopen fopen_errno path p Hopen.
  assert (E : log_set_file fopen fopen_errno path p
              = Some (None, mk_process (log_level p) None
                              (fopen_errno path "a" (errno p)) (trace p))).
  { unfold log_set_file. now rewrite Hopen. }
  split; [exact E | split].
  - intros ks Hw. step E.
    destruct (run_calls_null_sink ks
                (mk_process (log_level p) None (fopen_errno path "a" (errno p)) (trace p))
                eq_refl Hw) as (min & evs & R & F).
    exists min, (fopen_errno path "a" (errno p)), evs. split; [exact R | exact F].
  - intros q cs lc lvl fmt args body Hf Hge Hb.
    eexists. split.
    + apply (log_log_emits cs lc lvl fmt args body q ltac:(lia) Hb).
    + unfold after. simpl. rewrite Hf. repeat split.
Qed.

Lemma log_set_file_failure_falls_back_to_stderr_witness :
  log_set_file fopen_fails fopen_sets_ENOENT "/nonexistent/debug.log"
    (mk_process (enum_value LOG_WARN) (Some 7%nat) 0 [])
  = Some (None, mk_process (enum_value LOG_WARN) None 2 [])
  /\
  (exists q' : process,
     log_log site_main_c_42 clock_2024 (enum_value LOG_ERROR) "code %d" [ArgD 7]
       (mk_process (enum_value LOG_WARN) None 2 [])
     = Some (tt, q') /\
     log_file q' = None /\
     log_level q' = enum_value LOG_WARN /\
     trace q'
     = [Fprintf stderr "ERROR [2024-03-01 10:15:] (main.c:42) ";
        Fprintf stderr "code 7"; Fprintf stderr LF])
  /\
  exists (min : Z) (err : Z) (evs : list event),
    (log_set_file fopen_fails fopen_sets_ENOENT "/nonexistent/debug.log" ;;;
     run_calls [Call_log_log (mk_invocation site_x_c_10 clock_2024 LOG_INFO "skipped" []);
                Call_log_set_level LOG_TRACE;
                Call_log_log (mk_invocation site_main_c_42 clock_2024 LOG_INFO
                                "code %d" [ArgD 7])])
      (mk_process (enum_value LOG_WARN) (Some 7%nat) 0 [])
    = Some (tt, mk_process min None err ([] ++ evs)%list) /\
    Forall writes_to_stderr evs.
Proof.
  split; [| split].
  - apply (proj1 (log_set_file_failure_falls_back_to_stderr fopen_fails fopen_sets_ENOENT
                    "/nonexistent/debug.log"
                    (mk_process (enum_value LOG_WARN) (Some 7%nat) 0 []) eq_refl)).
  - apply (proj2 (proj2 (log_set_file_failure_falls_back_to_stderr fopen_fails
                           fopen_sets_ENOENT "/nonexistent/debug.log"
                           (mk_process (enum_value LOG_WARN) (Some 7%nat) 0 []) eq_refl))
             (mk_process (enum_value LOG_WARN) None 2 []) site_main_c_42 clock_2024
             LOG_ERROR "code %d" [ArgD 7] "code 7" eq_refl).
    + simpl. lia.
    + reflexivity.
  - apply (proj1 (proj2 (log_set_file_failure_falls_back_to_stderr fopen_fails
                           fopen_sets_ENOENT "/nonexistent/debug.log"
                           (mk_process (enum_value LOG_WARN) (Some 7%nat) 0 []) eq_refl))).
    repeat constructor; discriminate.
Defined.

(* ================================================================== *)
(** ** [get_time_str] *)

(** A property checked on every integer of a range holds on the range. *)
Lemma forall_range (P : Z -> bool) (lo : Z) (n : nat) :
  forallb (fun k => P (lo + Z.of_nat k)) (seq 0 n) = true ->
  forall z, lo <= z < lo + Z.of_nat n -> P z = true.
Proof.
  intros H z Hz. rewrite forallb_forall in H.
  specialize (H (Z.to_nat (z - lo))).
  replace (lo + Z.of_nat (Z.to_nat (z - lo))) with z in H by lia.
  apply H, in_seq. lia.
Qed.

Lemma dec_year_length (y : Z) :
  1000 <= y <= 9999 -> String.length (dec y) = 4%nat.
Proof.
  intros H. apply Nat.eqb_eq.
  apply (forall_range (fun z => Nat.eqb (String.length (dec z)) 4) 1000 (Z.to_nat 9000));
    [vm_compute; reflexivity | lia].
Qed.

Lemma dec2_length (n : Z) :
  0 <= n <= 99 -> String.length (dec2 n) = 2%nat.
Proof.
  intros H. apply Nat.eqb_eq.
  apply (forall_range (fun z => Nat.eqb (String.length (dec2 z)) 2) 0 100);
    [vm_compute; reflexivity | lia].
Qed.

(** The timestamp of a calendar time has nineteen characters. *)
Lemma time_format_length t text :
  calendar_time t ->
  strftime_text time_format t = Some text ->
  String.length text = 19%nat.
Proof.
  intros (Hs & Hm & Hh & Hd & Hmo & Hy) E.
  rewrite strftime_text_time_format in E. injection E as <-.
  repeat (rewrite length_append; cbn [String.length]).
  rewrite (dec_year_length _ Hy).
  rewrite !dec2_length by lia. reflexivity.
Qed.

(** C5 (timestamp), which the code breaks.  At every calendar time the
    format of [get_time_str] stands for nineteen characters, which with
    the terminating null need the twenty bytes of [time_str]; [strftime] is
    given [sizeof(time_str) - 1], nineteen, so it fails: it returns zero
    and [get_time_str] returns the indeterminate contents of the array, not
    the timestamp.  Given the size of the array, [strftime] stores the
    timestamp. *)
Theorem get_time_str_buffer_one_byte_short :
  forall lc : libc_time,
    calendar_time (localtime_now lc) ->
    exists text,
      strftime_text time_format (localtime_now lc) = Some text /\
      String.length text = 19%nat /\
      strftime (residue lc) (sizeof_time_str - 1) time_format (localtime_now lc)
      = Some (0, residue lc) /\
      get_time_str lc = Some (residue lc) /\
      strftime (residue lc) sizeof_time_str time_format (localtime_now lc)
      = Some (19, text).
Proof.
  intros lc Hc.
  destruct (strftime_text time_format (localtime_now lc)) as [text|] eqn:E;
    [| rewrite strftime_text_time_format in E; discriminate].
  pose proof (time_format_length _ _ Hc E) as L.
  exists text. split; [reflexivity | split; [exact L |]].
  assert (S19 : strftime (residue lc) (sizeof_time_str - 1) time_format (localtime_now lc)
                = Some (0, residue lc)).
  { unfold strftime. rewrite E, L. reflexivity. }
  split; [exact S19 | split].
  - unfold get_time_str. rewrite S19. reflexivity.
  - unfold strftime. rewrite E, L. reflexivity.
Qed.

Lemma get_time_str_buffer_one_byte_short_witness :
  exists text,
    strftime_text time_format (localtime_now clock_2024) = Some text /\
    String.length text = 19%nat /\
    strftime (residue clock_2024) (sizeof_time_str - 1) time_format
      (localtime_now clock_2024)
    = Some (0, residue clock_2024) /\
    get_time_str clock_2024 = Some (residue clock_2024) /\
    strftime (residue clock_2024) sizeof_time_str time_format (localtime_now clock_2024)
    = Some (19, text).
Proof.
  apply (get_time_str_buffer_one_byte_short clock_2024).
  unfold calendar_time. simpl. lia.
Defined.

(** On 2024-03-01 at 10:15:22 the timestamp is "2024-03-01 10:15:22";
    [get_time_str] returns what the failed [strftime] left in the array,
    here the first seventeen characters. *)
Example get_time_str_2024 :
  strftime_text time_format tm_2024_03_01 = Some "2024-03-01 10:15:22" /\
  get_time_str clock_2024 = Some "2024-03-01 10:15:".
Proof. split; reflexivity. Qed.

(** [get_time_str] at a calendar time: what the failed [strftime] left. *)
Lemma get_time_str_calendar lc :
  calendar_time (localtime_now lc) ->
  exists stamp,
    strftime_text time_format (localtime_now lc) = Some stamp /\
    String.length stamp = 19%nat /\
    timestamp lc = residue lc.
Proof.
  intros Hc.
  destruct (strftime_text time_format (localtime_now lc)) as [stamp|] eqn:E;
    [| rewrite strftime_text_time_format in E; discriminate].
  pose proof (time_format_length _ _ Hc E) as L.
  exists stamp. split; [reflexivity | split; [exact L |]].
  unfold timestamp, get_time_str, strftime. rewrite E, L. reflexivity.
Qed.

(** C2 (format of the line), which the code breaks by the defect of C5.
    For every record emitted at a calendar time, the characters written to
    the active stream are the level name, a space, a string in square
    brackets, a space, the file name and the line number in parentheses
    with a colon between them, a space, the formatted message and a line
    feed, as the claim says; but the string in the brackets is not the
    nineteen-character timestamp [stamp] of that time: it is what the
    failed [strftime] left in [time_str]. *)
Theorem log_log_line_brackets_hold_strftime_residue :
  forall (min lvl : LogLevel) (f : FILE_ptr) (e : Z) (tr : list event)
         (cs : call_site) (lc : libc_time) (fmt : string) (args : list printf_arg)
         (body : string),
    enum_value lvl >= enum_value min ->
    vformat fmt args = Some body ->
    calendar_time (localtime_now lc) ->
    exists (stamp : string) (evs : list event),
      strftime_text time_format (localtime_now lc) = Some stamp /\
      String.length stamp = 19%nat /\
      log_log cs lc (enum_value lvl) fmt args (mk_process (enum_value min) f e tr)
      = Some (tt, mk_process (enum_value min) f e (tr ++ evs)%list) /\
      written (active_stream f) evs
      = level_name lvl ++ " [" ++ residue lc ++ "] (" ++ __FILE__ cs ++ ":"
        ++ dec (__LINE__ cs) ++ ") " ++ body ++ LF.
Proof.
  intros min lvl f e tr cs lc fmt args body Hle Hb Hc.
  destruct (get_time_str_calendar lc Hc) as (stamp & Es & Ls & Et).
  destruct (log_log_line_format min lvl f e tr cs lc fmt args body Hle Hb)
    as (_ & evs & Er & Ew).
  exists stamp, evs. rewrite Et in Ew. auto.
Qed.

Lemma log_log_line_brackets_hold_strftime_residue_witness :
  exists (stamp : string) (evs : list event),
    strftime_text time_format tm_2024_03_01 = Some stamp /\
    String.length stamp = 19%nat /\
    log_log site_x_c_10 clock_2024 (enum_value LOG_INFO) "hello %s" [ArgS "world"]
      (mk_process (enum_value LOG_TRACE) None 0 [])
    = Some (tt, mk_process (enum_value LOG_TRACE) None 0 ([] ++ evs)%list) /\
    written (active_stream None) evs
    = level_name LOG_INFO ++ " [" ++ residue clock_2024 ++ "] ("
      ++ __FILE__ site_x_c_10 ++ ":" ++ dec (__LINE__ site_x_c_10) ++ ") "
      ++ "hello world" ++ LF.
Proof.
  apply (log_log_line_brackets_hold_strftime_residue LOG_TRACE LOG_INFO None 0 []
           site_x_c_10 clock_2024 "hello %s" [ArgS "world"] "hello world").
  - simpl. lia.
  - reflexivity.
  - unfold calendar_time. simpl. lia.
Defined.

(** The specification's example at 2024-03-01 10:15:22: the line should
    read "INFO [2024-03-01 10:15:22] (x.c:10) hello world"; it reads
    "INFO [2024-03-01 10:15:] (x.c:10) hello world". *)
Example log_info_hello_world_2024 :
  strftime_text time_format (localtime_now clock_2024) = Some "2024-03-01 10:15:22" /\
  exists p',
    log_info site_x_c_10 clock_2024 "hello %s" [ArgS "world"] initial_process
    = Some (tt, p') /\
    written stderr (trace p') = "INFO [2024-03-01 10:15:] (x.c:10) hello world" ++ LF.
Proof. split; [reflexivity |]. eexists. split; reflexivity. Qed.

(** The line of the specification's example, at any time. *)
Example log_info_hello_world (lc : libc_time) :
  log_info site_x_c_10 lc "hello %s" [ArgS "world"] initial_process
  = Some (tt, mk_process (enum_value LOG_TRACE) None 0
                [Fprintf stderr ("INFO [" ++ timestamp lc ++ "] (x.c:10) ");
                 Fprintf stderr "hello world"; Fprintf stderr LF]).
Proof.
  unfold log_info.
  rewrite (log_log_emits site_x_c_10 lc LOG_INFO "hello %s" [ArgS "world"] "hello world"
             initial_process ltac:(simpl; lia) eq_refl).
  reflexivity.
Qed.

(* ================================================================== *)
(** ** [log_set_level], the state at program start, levels above the range *)

(** X1.  After [log_set_level(z)], for [z] from 0 to [INT_MAX] (the
    enumerators, and the integers above them), a [log_log] call at a level
    of the enumeration with a well-formed message writes its record
    exactly when the level is at least [z]; the minimum level held before
    plays no part, and [log_file] and [errno] are as they were.  In
    particular a [z] above [LOG_ERROR] silences every level. *)
Theorem log_set_level_then_log_log :
  forall (z : Z) (lvl : LogLevel) (p : process) (cs : call_site) (lc : libc_time)
         (fmt : string) (args : list printf_arg) (body : string),
    0 <= z < 2 ^ 31 ->
    vformat fmt args = Some body ->
    (log_set_level z ;;; log_log cs lc (enum_value lvl) fmt args) p
    = Some (tt, mk_process z (log_file p) (errno p)
                  (trace p
                   ++ (if (enum_value lvl >=? z)%Z
                       then
                         [Fprintf (active_stream (log_file p))
                            (level_name lvl ++ " [" ++ timestamp lc ++ "] ("
                             ++ __FILE__ cs ++ ":" ++ dec (__LINE__ cs) ++ ") ");
                          Fprintf (active_stream (log_file p)) body;
                          Fprintf (active_stream (log_file p)) LF]
                         ++ match log_file p with
                            | Some h => [Fflush (fstream h)]
                            | None => []
                            end
                       else []))%list).
Proof.
  intros z lvl p cs lc fmt args body Hz Hb.
  step (log_set_level_run z p). rewrite Z.geb_leb.
  destruct (Z.leb_spec z (enum_value lvl)) as [H|H].
  - rewrite (log_log_emits cs lc lvl fmt args body
               (mk_process z (log_file p) (errno p) (trace p)) H Hb).
    unfold after. simpl. rewrite record_events_shape. reflexivity.
  - rewrite (log_log_below cs lc (enum_value lvl) fmt args
               (mk_process z (log_file p) (errno p) (trace p)) H).
    now rewrite app_nil_r.
Qed.

Lemma log_set_level_then_log_log_witness :
  (log_set_level 5 ;;; log_log site_x_c_10 clock_2024 (enum_value LOG_ERROR) "code %d" [ArgD 7])
    (mk_process (enum_value LOG_TRACE) None 0 [])
  = Some (tt, mk_process 5 None 0 [])
  /\
  (log_set_level (enum_value LOG_DEBUG) ;;;
   log_log site_x_c_10 clock_2024 (enum_value LOG_INFO) "code %d" [ArgD 7])
    (mk_process (enum_value LOG_ERROR) (Some 3%nat) 0 [])
  = Some (tt, mk_process (enum_value LOG_DEBUG) (Some 3%nat) 0
                [Fprintf (fstream 3) "INFO [2024-03-01 10:15:] (x.c:10) ";
                 Fprintf (fstream 3) "code 7"; Fprintf (fstream 3) LF;
                 Fflush (fstream 3)]).
Proof.
  split.
  - apply (log_set_level_then_log_log 5 LOG_ERROR (mk_process (enum_value LOG_TRACE) None 0 [])
             site_x_c_10 clock_2024 "code %d" [ArgD 7] "code 7" ltac:(lia) eq_refl).
  - apply (log_set_level_then_log_log (enum_value LOG_DEBUG) LOG_INFO
             (mk_process (enum_value LOG_ERROR) (Some 3%nat) 0 [])
             site_x_c_10 clock_2024 "code %d" [ArgD 7] "code 7"
             ltac:(simpl; lia) eq_refl).
Defined.

(** X2.  At program start ([log_level] is [LOG_TRACE], [log_file] is null)
    every wrapper, given a well-formed message, writes its record to the
    standard error stream and flushes nothing. *)
Theorem default_logger_writes_every_level_to_stderr :
  forall (lvl : LogLevel) (cs : call_site) (lc : libc_time)
         (fmt : string) (args : list printf_arg) (body : string),
    vformat fmt args = Some body ->
    log_log cs lc (enum_value lvl) fmt args initial_process
    = Some (tt, mk_process (enum_value LOG_TRACE) None 0
                  [Fprintf stderr
                     (level_name lvl ++ " [" ++ timestamp lc ++ "] ("
                      ++ __FILE__ cs ++ ":" ++ dec (__LINE__ cs) ++ ") ");
                   Fprintf stderr body; Fprintf stderr LF]).
Proof.
  intros lvl cs lc fmt args body Hb.
  rewrite (log_log_emits cs lc lvl fmt args body initial_process
             ltac:(destruct lvl; simpl; lia) Hb).
  reflexivity.
Qed.

Lemma default_logger_writes_every_level_to_stderr_witness :
  log_log site_x_c_10 clock_2024 (enum_value LOG_TRACE) "enter %s" [ArgS "main"]
    initial_process
  = Some (tt, mk_process (enum_value LOG_TRACE) None 0
                [Fprintf stderr "TRACE [2024-03-01 10:15:] (x.c:10) ";
                 Fprintf stderr "enter main"; Fprintf stderr LF]).
Proof.
  apply (default_logger_writes_every_level_to_stderr LOG_TRACE site_x_c_10 clock_2024
           "enter %s" [ArgS "main"] "enter main" eq_refl).
Defined.

(** X3.  A level above the enumeration (an [int] greater than [LOG_ERROR])
    that passes the filter makes [log_log] undefined, whatever the sink and
    the message are: the level name is read outside the array
    [level_str].  With a minimum level of the enumeration such a level
    always passes. *)
Theorem log_log_undefined_above_enumeration :
  forall (level : Z) (p : process) (cs : call_site) (lc : libc_time)
         (fmt : string) (args : list printf_arg),
    4 < level < 2 ^ 31 ->
    0 <= log_level p <= level ->
    log_log cs lc level fmt args p = None.
Proof.
  intros level p cs lc fmt args Hout Hle.
  unfold log_log, bind at 1, read.
  rewrite Z.geb_leb. destruct (Z.leb_spec (log_level p) level); [| lia].
  unfold bind at 1.
  assert (Hl : lift (LOG_ARGS cs lc level) p = None).
  { unfold LOG_ARGS.
    now rewrite (get_log_level_str_outside level (or_intror (proj1 Hout))). }
  destruct (log_file p); unfold bind at 1; now rewrite Hl.
Qed.

Lemma log_log_undefined_above_enumeration_witness :
  log_log site_x_c_10 clock_2024 5 "hello" []
    (mk_process (enum_value LOG_ERROR) None 0 [])
  = None.
Proof.
  apply (log_log_undefined_above_enumeration 5
           (mk_process (enum_value LOG_ERROR) None 0 []) site_x_c_10 clock_2024
           "hello" []).
  - lia.
  - simpl. lia.
Defined.

(* ================================================================== *)
(** ** A sink that opens *)

Lemma record_events_on_stream f pre body :
  Forall (on_stream (active_stream f)) (record_events f pre body).
Proof.
  destruct f; simpl;
    repeat (apply Forall_cons;
            [first [left; eexists; reflexivity | right; reflexivity] |]);
    apply Forall_nil.
Qed.

(** One call keeps [log_file] and acts on the active stream only. *)
Lemma run_call_keeps_sink k p :
  well_formed_call k ->
  exists (min : Z) (evs : list event),
    run_call k p
    = Some (tt, mk_process min (log_file p) (errno p) (trace p ++ evs)%list) /\
    Forall (on_stream (active_stream (log_file p))) evs.
Proof.
  intros Hw. destruct k as [c|l]; simpl in *.
  - assert (Hb : vformat (inv_fmt c) (inv_args c) = Some (inv_body c)).
    { unfold inv_body. destruct (vformat (inv_fmt c) (inv_args c)); congruence. }
    unfold log_invocation.
    destruct (Z_lt_le_dec (enum_value (inv_level c)) (log_level p)) as [Hl|Hl].
    + exists (log_level p), []. split; [| constructor].
      rewrite (log_log_below _ _ _ _ _ p Hl), app_nil_r. now destruct p.
    + exists (log_level p). eexists. split.
      * rewrite (log_log_emits _ _ _ _ _ _ p Hl Hb). reflexivity.
      * apply record_events_on_stream.
  - exists (enum_value l), []. split; [| constructor].
    step (log_set_level_run (enum_value l) p). now rewrite app_nil_r.
Qed.

Lemma run_calls_keep_sink ks :
  forall p,
    Forall well_formed_call ks ->
    exists (min : Z) (evs : list event),
      run_calls ks p
      = Some (tt, mk_process min (log_file p) (errno p) (trace p ++ evs)%list) /\
      Forall (on_stream (active_stream (log_file p))) evs.
Proof.
  induction ks as [|k rest IH]; intros p Hw.
  - exists (log_level p), []. split; [| constructor].
    simpl. unfold ret. rewrite app_nil_r. now destruct p.
  - inversion Hw as [|? ? Hk Hrest]; subst.
    destruct (run_call_keeps_sink k p Hk) as (m1 & ev1 & E1 & F1).
    destruct (IH (mk_process m1 (log_file p) (errno p) (trace p ++ ev1)%list) Hrest)
      as (m2 & ev2 & E2 & F2).
    exists m2, (ev1 ++ ev2)%list. split.
    + cbn [run_calls]. step E1. rewrite E2. simpl. now rewrite app_assoc.
    + apply Forall_app. now split.
Qed.

(** Actions on a file write nothing to the standard error stream. *)
Lemma written_stderr_on_file h evs :
  Forall (on_stream (fstream h)) evs -> written stderr evs = "".
Proof.
  induction 1 as [|e evs [[text ->]| ->] _ IH]; simpl; auto.
Qed.

(** X4.  When [fopen] opens the path as the stream [h], [log_set_file]
    stores [h] in [log_file] and performs no action.  From then on, over
    any run of [log_log] and [log_set_level] calls, [log_file] stays [h],
    every action is a write to [h] or a flush of [h], and nothing is written
    to the standard error stream; and in a state whose [log_file] is [h],
    each [log_log] call that passes the level filter writes its record to
    [h] and then flushes [h]. *)
Theorem log_set_file_success_redirects_to_file :
  forall (fopen : string -> string -> FILE_ptr)
         (fopen_errno : string -> string -> Z -> Z) (path : string) (h : nat)
         (p : process),
    fopen path "a" = Some h ->
    log_set_file fopen fopen_errno path p
    = Some (Some h, mk_process (log_level p) (Some h) (errno p) (trace p))
    /\
    (forall ks : list logger_call,
       Forall well_formed_call ks ->
       exists (min : Z) (evs : list event),
         (log_set_file fopen fopen_errno path ;;; run_calls ks) p
         = Some (tt, mk_process min (Some h) (errno p) (trace p ++ evs)%list) /\
         Forall (on_stream (fstream h)) evs /\
         written stderr evs = "")
    /\
    (forall (q : process) (cs : call_site) (lc : libc_time) (lvl : LogLevel)
            (fmt : string) (args : list printf_arg) (body : string),
       log_file q = Some h ->
       enum_value lvl >= log_level q ->
       vformat fmt args = Some body ->
       log_log cs lc (enum_value lvl) fmt args q
       = Some (tt, mk_process (log_level q) (Some h) (errno q)
                     (trace q
                      ++ [Fprintf (fstream h)
                            (level_name lvl ++ " [" ++ timestamp lc ++ "] ("
                             ++ __FILE__ cs ++ ":" ++ dec (__LINE__ cs) ++ ") ");
                          Fprintf (fstream h) body; Fprintf (fstream h) LF;
                          Fflush (fstream h)])%list)).
Proof.
  intros fopen fopen_errno path h p Hopen.
  assert (E : log_set_file fopen fopen_errno path p
              = Some (Some h, mk_process (log_level p) (Some h) (errno p) (trace p))).
  { unfold log_set_file. now rewrite Hopen. }
  split; [exact E | split].
  - intros ks Hw. step E.
    destruct (run_calls_keep_sink ks
                (mk_process (log_level p) (Some h) (errno p) (trace p)) Hw)
      as (min & evs & R & F).
    exists min, evs. split; [exact R | split; [exact F |]].
    now apply (written_stderr_on_file h).
  - intros q cs lc lvl fmt args body Hf Hge Hb.
    rewrite (log_log_emits cs lc lvl fmt args body q ltac:(lia) Hb).
    unfold after. rewrite Hf. reflexivity.
Qed.

Lemma log_set_file_success_redirects_to_file_witness :
  log_set_file (fopen_opens 3) fopen_sets_ENOENT "debug.log" initial_process
  = Some (Some 3%nat, mk_process (enum_value LOG_TRACE) (Some 3%nat) 0 [])
  /\
  log_log site_main_c_42 clock_2024 (enum_value LOG_WARN) "low on %s" [ArgS "disk"]
    (mk_process (enum_value LOG_TRACE) (Some 3%nat) 0 [])
  = Some (tt, mk_process (enum_value LOG_TRACE) (Some 3%nat) 0
                [Fprintf (fstream 3) "WARN [2024-03-01 10:15:] (main.c:42) ";
                 Fprintf (fstream 3) "low on disk"; Fprintf (fstream 3) LF;
                 Fflush (fstream 3)])
  /\
  exists (min : Z) (evs : list event),
    (log_set_file (fopen_opens 3) fopen_sets_ENOENT "debug.log" ;;;
     run_calls [Call_log_log (mk_invocation site_x_c_10 clock_2024 LOG_INFO "started" []);
                Call_log_set_level LOG_ERROR;
                Call_log_log (mk_invocation site_x_c_10 clock_2024 LOG_INFO "skipped" [])])
      initial_process
    = Some (tt, mk_process min (Some 3%nat) 0 ([] ++ evs)%list) /\
    Forall (on_stream (fstream 3)) evs /\
    written stderr evs = "".
Proof.
  split; [| split].
  - apply (proj1 (log_set_file_success_redirects_to_file (fopen_opens 3) fopen_sets_ENOENT
                    "debug.log" 3
                    initial_process eq_refl)).
  - apply (proj2 (proj2 (log_set_file_success_redirects_to_file (fopen_opens 3)
                           fopen_sets_ENOENT "debug.log" 3 initial_process eq_refl))
             (mk_process (enum_value LOG_TRACE) (Some 3%nat) 0 []) site_main_c_42
             clock_2024 LOG_WARN "low on %s" [ArgS "disk"] "low on disk" eq_refl).
    + simpl. lia.
    + reflexivity.
  - apply (proj1 (proj2 (log_set_file_success_redirects_to_file (fopen_opens 3)
                           fopen_sets_ENOENT "debug.log" 3 initial_process eq_refl))).
    repeat constructor; discriminate.
Defined.

(* ================================================================== *)
(** ** The guards, [errno] and [clean_errno] *)

Lemma log_log_trace_extends cs lc level fmt args p u p' :
  log_log cs lc level fmt args p = Some (u, p') ->
  exists evs, trace p' = (trace p ++ evs)%list.
Proof.
  unfold log_log, bind, read, lift, fprintf, fflush, emit, ret, undefined.
  destruct (level >=? log_level p)%Z.
  - destruct (log_file p) as [h|] eqn:Hf;
      destruct (LOG_ARGS cs lc level) as [a|]; try discriminate;
      unfold bind, lift, ret, undefined;
      destruct (vformat LOG_FMT a); try discriminate;
      destruct (vformat fmt args); try discriminate; simpl;
      intros [= <- <-]; simpl; rewrite <- !app_assoc; eexists; reflexivity.
  - intros [= <- <-]. exists []. now rewrite app_nil_r.
Qed.

(** What a guard built on [log_log] at some level does, read off its
    result. *)
Lemma guard_result cs lc level A M args p c p' :
  (if (A =? 0)%Z
   then log_log cs lc level M args ;;; store_errno 0 ;;; ret (Goto "error")
   else ret Next) p = Some (c, p') ->
  log_level p' = log_level p /\ log_file p' = log_file p /\
  (exists evs, trace p' = (trace p ++ evs)%list) /\
  ((A <> 0 /\ c = Next /\ p' = p) \/ (A = 0 /\ c = Goto "error" /\ errno p' = 0)).
Proof.
  destruct (Z.eqb_spec A 0) as [->|Hn].
  - unfold bind at 1.
    destruct (log_log cs lc level M args p) as [[u p1]|] eqn:E; [| discriminate].
    destruct (log_log_frame _ _ _ _ _ _ _ _ E) as (Hl & Hf & _).
    destruct (log_log_trace_extends _ _ _ _ _ _ _ _ E) as [evs Ht].
    step (store_errno_run 0 p1). unfold ret. intros [= <- <-]. simpl.
    split; [exact Hl | split; [exact Hf | split]].
    + exists (evs ++ [ErrnoStore 0])%list. now rewrite Ht, app_assoc.
    + right. auto.
  - unfold ret. intros [= <- <-].
    split; [reflexivity | split; [reflexivity | split]].
    + exists []. now rewrite app_nil_r.
    + left. auto.
Qed.

(** X5.  Whatever [check], [check_debug] or [check_mem] is given, a state
    it returns has [log_level] and [log_file] as before and a trace that
    extends the one before.  When the condition holds, control falls
    through and the state is untouched, [errno] included; when it does
    not, the only jump is to the label [error], and [errno] is zero. *)
Theorem guards_keep_logger_configuration :
  forall (cs : call_site) (lc : libc_time) (A : Z) (M : string)
         (args : list printf_arg) (p : process) (c : control) (p' : process),
    check cs lc A M args p = Some (c, p') \/
    check_debug cs lc A M args p = Some (c, p') \/
    check_mem cs lc A p = Some (c, p') ->
    log_level p' = log_level p /\ log_file p' = log_file p /\
    (exists evs, trace p' = (trace p ++ evs)%list) /\
    ((A <> 0 /\ c = Next /\ p' = p) \/ (A = 0 /\ c = Goto "error" /\ errno p' = 0)).
Proof.
  intros cs lc A M args p c p' [H|[H|H]].
  - exact (guard_result cs lc (enum_value LOG_ERROR) A M args p c p' H).
  - exact (guard_result cs lc (enum_value LOG_DEBUG) A M args p c p' H).
  - exact (guard_result cs lc (enum_value LOG_ERROR) A "Out of memory." [] p c p' H).
Qed.

Lemma guards_keep_logger_configuration_witness :
  log_level (mk_process (enum_value LOG_WARN) (Some 3%nat) 0 [ErrnoStore 0])
  = log_level (mk_process (enum_value LOG_WARN) (Some 3%nat) 2 []) /\
  log_file (mk_process (enum_value LOG_WARN) (Some 3%nat) 0 [ErrnoStore 0])
  = log_file (mk_process (enum_value LOG_WARN) (Some 3%nat) 2 []) /\
  (exists evs,
     trace (mk_process (enum_value LOG_WARN) (Some 3%nat) 0 [ErrnoStore 0])
     = (trace (mk_process (enum_value LOG_WARN) (Some 3%nat) 2 []) ++ evs)%list) /\
  ((0 <> 0 /\ Goto "error" = Next /\
    mk_process (enum_value LOG_WARN) (Some 3%nat) 0 [ErrnoStore 0]
    = mk_process (enum_value LOG_WARN) (Some 3%nat) 2 []) \/
   (0 = 0 /\ Goto "error" = Goto "error" /\
    errno (mk_process (enum_value LOG_WARN) (Some 3%nat) 0 [ErrnoStore 0]) = 0)).
Proof.
  apply (guards_keep_logger_configuration site_x_c_10 clock_2024 0 "reason" []
           (mk_process (enum_value LOG_WARN) (Some 3%nat) 2 []) (Goto "error")
           (mk_process (enum_value LOG_WARN) (Some 3%nat) 0 [ErrnoStore 0])).
  right. left. reflexivity.
Defined.

Lemma clean_errno_run strerror p :
  clean_errno strerror p
  = Some ((if (errno p =? 0)%Z then "None" else strerror (errno p)), p).
Proof. reflexivity. Qed.

(** X6.  [clean_errno()] evaluated after a guard: when the guard's
    condition does not hold, the guard has stored zero to [errno], so
    [clean_errno()] is "None" whatever [errno] was before and whatever
    [strerror] says; when the condition holds, [clean_errno()] still
    describes the [errno] from before the guard. *)
Theorem clean_errno_after_guard :
  forall (strerror : Z -> string) (min : LogLevel) (f : FILE_ptr) (e : Z)
         (tr : list event) (cs : call_site) (lc : libc_time) (A : Z)
         (M : string) (args : list printf_arg) (body : string),
    vformat M args = Some body ->
    (A = 0 ->
     exists pc pd pm : process,
       (check cs lc A M args ;;; clean_errno strerror)
         (mk_process (enum_value min) f e tr) = Some ("None", pc) /\
       (check_debug cs lc A M args ;;; clean_errno strerror)
         (mk_process (enum_value min) f e tr) = Some ("None", pd) /\
       (check_mem cs lc A ;;; clean_errno strerror)
         (mk_process (enum_value min) f e tr) = Some ("None", pm))
    /\
    (A <> 0 ->
     (check cs lc A M args ;;; clean_errno strerror)
       (mk_process (enum_value min) f e tr)
     = Some ((if (e =? 0)%Z then "None" else strerror e),
             mk_process (enum_value min) f e tr) /\
     (check_debug cs lc A M args ;;; clean_errno strerror)
       (mk_process (enum_value min) f e tr)
     = Some ((if (e =? 0)%Z then "None" else strerror e),
             mk_process (enum_value min) f e tr) /\
     (check_mem cs lc A ;;; clean_errno strerror)
       (mk_process (enum_value min) f e tr)
     = Some ((if (e =? 0)%Z then "None" else strerror e),
             mk_process (enum_value min) f e tr)).
Proof.
  intros strerror min f e tr cs lc A M args body Hb. split.
  - intros ->. do 3 eexists. split; [| split].
    + step (check_false cs lc M args body (mk_process (enum_value min) f e tr)
              (enum_value_le_ERROR min) Hb).
      rewrite clean_errno_run. reflexivity.
    + step (check_debug_false cs lc M args body (mk_process (enum_value min) f e tr) Hb).
      rewrite clean_errno_run. reflexivity.
    + unfold check_mem.
      step (check_false cs lc "Out of memory." [] "Out of memory."
              (mk_process (enum_value min) f e tr) (enum_value_le_ERROR min) eq_refl).
      rewrite clean_errno_run. reflexivity.
  - intros Hn. split; [| split].
    + step (check_true cs lc A M args (mk_process (enum_value min) f e tr) Hn).
      apply clean_errno_run.
    + step (check_debug_true cs lc A M args (mk_process (enum_value min) f e tr) Hn).
      apply clean_errno_run.
    + unfold check_mem.
      step (check_true cs lc A "Out of memory." [] (mk_process (enum_value min) f e tr) Hn).
      apply clean_errno_run.
Qed.

Lemma clean_errno_after_guard_witness :
  (exists pc pd pm : process,
     (check site_x_c_10 clock_2024 0 "open failed" [] ;;; clean_errno strerror_example)
       (mk_process (enum_value LOG_TRACE) None 2 []) = Some ("None", pc) /\
     (check_debug site_x_c_10 clock_2024 0 "open failed" [] ;;; clean_errno strerror_example)
       (mk_process (enum_value LOG_TRACE) None 2 []) = Some ("None", pd) /\
     (check_mem site_x_c_10 clock_2024 0 ;;; clean_errno strerror_example)
       (mk_process (enum_value LOG_TRACE) None 2 []) = Some ("None", pm))
  /\
  (check site_x_c_10 clock_2024 1 "open failed" [] ;;; clean_errno strerror_example)
    (mk_process (enum_value LOG_TRACE) None 2 [])
  = Some ("No such file or directory", mk_process (enum_value LOG_TRACE) None 2 []).
Proof.
  split.
  - apply (proj1 (clean_errno_after_guard strerror_example LOG_TRACE None 2 []
                    site_x_c_10 clock_2024 0 "open failed" [] "open failed" eq_refl)
             eq_refl).
  - apply (proj1 (proj2 (clean_errno_after_guard strerror_example LOG_TRACE None 2 []
                           site_x_c_10 clock_2024 1 "open failed" [] "open failed" eq_refl)
                    ltac:(discriminate))).
Defined.

(* ================================================================== *)
(** ** Guards in sequence *)

(** A block of guards whose conditions all hold falls through and leaves
    the state as it was. *)
Lemma exec_block_guards_hold gs p :
  Forall (fun g => g_cond g <> 0) gs ->
  exec_block (map guard_stmt gs) p = Some (Next, p).
Proof.
  induction 1 as [|g gs Hg _ IH]; [reflexivity |].
  cbn [map exec_block].
  step (check_true (g_site g) (g_time g) (g_cond g) (g_msg g) (g_args g) p Hg).
  exact IH.
Qed.

Lemma guards_result_is_jump g p c p' :
  g_cond g = 0 -> guard_stmt g p = Some (c, p') -> c = Goto "error".
Proof.
  intros H0 E. unfold guard_stmt in E.
  destruct (guard_result _ _ _ _ _ _ _ _ _ E) as (_ & _ & _ & [(Hn & _)|(_ & Hc & _)]);
    [contradiction | exact Hc].
Qed.

(** A guard whose condition does not hold ends the block it starts. *)
Lemma exec_block_guard_fails g rest p :
  g_cond g = 0 ->
  exec_block (guard_stmt g :: rest) p = guard_stmt g p.
Proof.
  intros H0. cbn [exec_block]. unfold bind.
  destruct (guard_stmt g p) as [[c p']|] eqn:E; [| reflexivity].
  rewrite (guards_result_is_jump g p c p' H0 E). reflexivity.
Qed.

(** X7.  In a block of [check] statements, those before the first one
    whose condition does not hold do nothing, that one decides the outcome
    of the block (its record, the reset of [errno], the jump to [error]),
    and none of the statements after it runs, whatever they are; a block
    whose conditions all hold falls through with the state untouched. *)
Theorem first_failing_check_decides :
  forall (before : list guard) (g : guard) (rest : list (Proc control))
         (p : process),
    Forall (fun x => g_cond x <> 0) before ->
    (g_cond g = 0 ->
     exec_block (map guard_stmt before ++ guard_stmt g :: rest)%list p
     = guard_stmt g p)
    /\
    exec_block (map guard_stmt before) p = Some (Next, p).
Proof.
  intros before g rest p Hb. split.
  - intros H0. induction Hb as [|b bs Hn _ IH].
    + now apply exec_block_guard_fails.
    + cbn [map]. rewrite <- app_comm_cons. cbn [exec_block].
      step (check_true (g_site b) (g_time b) (g_cond b) (g_msg b) (g_args b) p Hn).
      exact IH.
  - now apply exec_block_guards_hold.
Qed.

Lemma first_failing_check_decides_witness :
  exec_block
    (map guard_stmt [mk_guard site_x_c_10 clock_2024 1 "not reached" []]
     ++ guard_stmt (mk_guard site_main_c_42 clock_2024 0 "bad header" [])
        :: [guard_stmt (mk_guard site_x_c_10 clock_2024 0 "never logged" [])])%list
    initial_process
  = Some (Goto "error",
          mk_process (enum_value LOG_TRACE) None 0
            [Fprintf stderr "ERROR [2024-03-01 10:15:] (main.c:42) ";
             Fprintf stderr "bad header"; Fprintf stderr LF; ErrnoStore 0]).
Proof.
  apply (proj1 (first_failing_check_decides
                  [mk_guard site_x_c_10 clock_2024 1 "not reached" []]
                  (mk_guard site_main_c_42 clock_2024 0 "bad header" [])
                  [guard_stmt (mk_guard site_x_c_10 clock_2024 0 "never logged" [])]
                  initial_process
                  ltac:(repeat constructor; discriminate))
           eq_refl).
Defined.

(* ================================================================== *)
(** ** The message is a format *)

Lemma vformat_no_percent s args : no_percent s = true -> vformat s args = Some s.
Proof.
  induction s as [|c s IH]; [reflexivity |].
  cbn [no_percent vformat]. intros H. apply andb_prop in H as [Hc Hs].
  destruct (Ascii.eqb c "%"); [discriminate |].
  now rewrite (IH Hs).
Qed.

Lemma vformat_lone_percent s args :
  no_percent s = true -> vformat (s ++ "%") args = None.
Proof.
  induction s as [|c s IH]; [reflexivity |].
  cbn [no_percent]. intros H. apply andb_prop in H as [Hc Hs].
  change ((String c s) ++ "%") with (String c (s ++ "%")).
  cbn [vformat]. destruct (Ascii.eqb c "%"); [discriminate |].
  now rewrite (IH Hs).
Qed.

(** X8.  The message given to [log_log] is used as a format.  At a level
    that passes the filter, a message without a percent sign is written
    as it is, arguments in excess being ignored; the same message followed
    by a lone percent sign makes the call undefined. *)
Theorem log_log_message_is_a_format :
  forall (lvl : LogLevel) (p : process) (cs : call_site) (lc : libc_time)
         (msg : string) (args : list printf_arg),
    no_percent msg = true ->
    log_level p <= enum_value lvl ->
    log_log cs lc (enum_value lvl) msg args p
    = Some (tt, mk_process (log_level p) (log_file p) (errno p)
                  (trace p
                   ++ [Fprintf (active_stream (log_file p))
                         (level_name lvl ++ " [" ++ timestamp lc ++ "] ("
                          ++ __FILE__ cs ++ ":" ++ dec (__LINE__ cs) ++ ") ");
                       Fprintf (active_stream (log_file p)) msg;
                       Fprintf (active_stream (log_file p)) LF]
                   ++ match log_file p with
                      | Some h => [Fflush (fstream h)]
                      | None => []
                      end)%list)
    /\
    log_log cs lc (enum_value lvl) (msg ++ "%") args p = None.
Proof.
  intros lvl p cs lc msg args Hm Hle. split.
  - rewrite (log_log_emits cs lc lvl msg args msg p Hle (vformat_no_percent msg args Hm)).
    unfold after. rewrite record_events_shape. reflexivity.
  - unfold log_log, bind at 1, read.
    rewrite Z.geb_leb. destruct (Z.leb_spec (log_level p) (enum_value lvl)); [| lia].
    unfold bind at 1.
    assert (Hl : lift (LOG_ARGS cs lc (enum_value lvl)) p
                 = Some ([ArgS (level_name lvl); ArgS (timestamp lc);
                          ArgS (__FILE__ cs); ArgD (__LINE__ cs)], p))
      by now rewrite LOG_ARGS_enum.
    destruct (log_file p) as [h|]; step Hl;
      step (fprintf_run _ _ _ _ _ (vformat_LOG_FMT _ _ _));
      unfold bind at 1, fprintf at 1, bind at 1;
      now rewrite (vformat_lone_percent msg args Hm).
Qed.

Lemma log_log_message_is_a_format_witness :
  log_log site_x_c_10 clock_2024 (enum_value LOG_INFO) "progress 100" [ArgD 1]
    initial_process
  = Some (tt, mk_process (enum_value LOG_TRACE) None 0
                [Fprintf stderr "INFO [2024-03-01 10:15:] (x.c:10) ";
                 Fprintf stderr "progress 100"; Fprintf stderr LF])
  /\
  log_log site_x_c_10 clock_2024 (enum_value LOG_INFO) ("progress 100" ++ "%") [ArgD 1]
    initial_process
  = None.
Proof.
  apply (log_log_message_is_a_format LOG_INFO initial_process site_x_c_10 clock_2024
           "progress 100" [ArgD 1]).
  - reflexivity.
  - simpl. lia.
Defined.
